(** * School-Management-System: the request handlers of [server.js]

    The service is an Express application with four routes over two MySQL
    tables ([students], [notifications]) and an outbound mail transport.
    This development embeds the route handlers as state-passing programs:

    - [JS]      the values a JSON request body carries, with JavaScript's
                truthiness, string conversion, [Array.prototype.includes]
                and [String.prototype.replace];
    - [Regex]   regular expressions, matched by derivatives, and the
                pattern used by [isValidEmail];
    - [Db]      the two tables and the eight SQL statements of the source;
    - [Server]  the handlers, written in a small monad that threads the
                database, records the statements and mails issued, and
                propagates a rejected [db.execute] to the enclosing
                [try]/[catch].

    The HTTPS variant of the server repeats the [/add-student] and
    [/students] handlers verbatim, so one embedding serves both files.
    Left out: the middleware in front of the routes (CORS, the JSON body
    parser, the rate limiter), the banner served at [/], which touches
    neither table, and the lines written to the console. *)

From Stdlib Require Import ZArith String Ascii List Bool Lia.
From stdpp Require Import gmap strings pretty.
Import ListNotations.

Open Scope string_scope.

(** ** JavaScript values *)

Module JS.

(** The scalar values of a parsed JSON body, and [undefined] for a key
    that is absent.  Numbers are the integer-valued ones; arrays and nested
    objects are outside the model.  A string is a sequence of code units
    below 256. *)
Inductive value : Type :=
| Undefined
| Null
| Bool (b : bool)
| Num (n : Z)
| Str (s : string).

Definition is_empty (s : string) : bool :=
  match s with
  | EmptyString => true
  | String _ _ => false
  end.

(** ToBoolean: what [!v] and [if (v)] look at. *)
Definition truthy (v : value) : bool :=
  match v with
  | Undefined => false
  | Null => false
  | Bool b => b
  | Num n => negb (n =? 0)%Z
  | Str s => negb (is_empty s)
  end.

(** [!v] *)
Definition not (v : value) : bool := negb (truthy v).

(** ToString, as applied by [RegExp.prototype.test] and by template
    literals.  (Integers are printed in decimal, which is how JavaScript
    prints them up to 2^53; the larger ones, which it rounds and from
    10^21 on prints in exponent form, are outside the model.) *)
Definition ToString (v : value) : string :=
  match v with
  | Undefined => "undefined"
  | Null => "null"
  | Bool true => "true"
  | Bool false => "false"
  | Num n => pretty n
  | Str s => s
  end.

(** SameValueZero, the comparison of [Array.prototype.includes]. *)
Definition same_value_zero (a b : value) : bool :=
  match a, b with
  | Undefined, Undefined => true
  | Null, Null => true
  | Bool x, Bool y => Bool.eqb x y
  | Num x, Num y => (x =? y)%Z
  | Str x, Str y => String.eqb x y
  | _, _ => false
  end.

(** [arr.includes(v)] *)
Definition includes (arr : list value) (v : value) : bool :=
  existsb (fun a => same_value_zero a v) arr.

(** [s.replace(pat, rep)] with a string pattern: the first occurrence
    only. *)
Definition replace (pat rep s : string) : string :=
  match String.index 0 pat s with
  | Some i =>
      String.substring 0 i s ++ rep ++
      String.substring (i + String.length pat)
                       (String.length s - (i + String.length pat)) s
  | None => s
  end.

(** The object a JSON body parses to. *)
Abbreviation object := (gmap string value).

(** Property access, as performed by the destructuring
    [const { k } = req.body]. *)
Definition get (o : object) (k : string) : value :=
  match o !! k with
  | Some v => v
  | None => Undefined
  end.

End JS.

(** ** Regular expressions *)

Module Regex.

(** The members of a bracket expression: a character or the class [\s]. *)
Inductive item : Type :=
| Ch (c : ascii)
| Space.

Inductive re : Type :=
| Void
| Eps
| Any
| Lit (c : ascii)
| Class (negated : bool) (items : list item)
| Cat (r1 r2 : re)
| Alt (r1 r2 : re)
| Star (r : re)
| Plus (r : re).

(** White space as [\s] sees it, on code units below 256:
    TAB, LF, VT, FF, CR, SPACE and NBSP. *)
Definition is_space (c : ascii) : bool :=
  let n := nat_of_ascii c in
  ((9 <=? n) && (n <=? 13) || (n =? 32) || (n =? 160))%nat.

Definition item_has (c : ascii) (i : item) : bool :=
  match i with
  | Ch d => Ascii.eqb d c
  | Space => is_space c
  end.

Definition class_has (negated : bool) (items : list item) (c : ascii) : bool :=
  xorb negated (existsb (item_has c) items).

Fixpoint nullable (r : re) : bool :=
  match r with
  | Void => false
  | Eps => true
  | Any => false
  | Lit _ => false
  | Class _ _ => false
  | Cat r1 r2 => nullable r1 && nullable r2
  | Alt r1 r2 => nullable r1 || nullable r2
  | Star _ => true
  | Plus r => nullable r
  end.

(** The derivative of [r] by the character [c]. *)
Fixpoint deriv (c : ascii) (r : re) : re :=
  match r with
  | Void => Void
  | Eps => Void
  | Any => Eps
  | Lit d => if Ascii.eqb d c then Eps else Void
  | Class n l => if class_has n l c then Eps else Void
  | Cat r1 r2 =>
      if nullable r1
      then Alt (Cat (deriv c r1) r2) (deriv c r2)
      else Cat (deriv c r1) r2
  | Alt r1 r2 => Alt (deriv c r1) (deriv c r2)
  | Star r => Cat (deriv c r) (Star r)
  | Plus r => Cat (deriv c r) (Star r)
  end.

Fixpoint matches (r : re) (s : list ascii) : bool :=
  match s with
  | [] => nullable r
  | c :: s' => matches (deriv c r) s'
  end.

(** A pattern literal [/.../]: its body and whether it opens with [^]
    and closes with [$] (no flags). *)
Record pattern : Type := Pattern {
  anchored_start : bool;
  body : re;
  anchored_end : bool
}.

Definition search (p : pattern) : re :=
  Cat (if anchored_start p then Eps else Star Any)
      (Cat (body p) (if anchored_end p then Eps else Star Any)).

(** [p.test(s)] *)
Definition test (p : pattern) (s : string) : bool :=
  matches (search p) (list_ascii_of_string s).

(** The words a regular expression denotes. *)
Inductive denotes : re -> list ascii -> Prop :=
| d_eps : denotes Eps []
| d_any c : denotes Any [c]
| d_lit c : denotes (Lit c) [c]
| d_class n l c : class_has n l c = true -> denotes (Class n l) [c]
| d_cat r1 r2 u v : denotes r1 u -> denotes r2 v -> denotes (Cat r1 r2) (u ++ v)
| d_alt_l r1 r2 u : denotes r1 u -> denotes (Alt r1 r2) u
| d_alt_r r1 r2 u : denotes r2 u -> denotes (Alt r1 r2) u
| d_star_nil r : denotes (Star r) []
| d_star_more r u v : denotes r u -> denotes (Star r) v -> denotes (Star r) (u ++ v)
| d_plus r u v : denotes r u -> denotes (Star r) v -> denotes (Plus r) (u ++ v).

(** [s] contains a match of [p]. *)
Definition found (p : pattern) (s : string) : Prop :=
  denotes (search p) (list_ascii_of_string s).

End Regex.

(** ** [isValidEmail] *)

(** [[^\s@]] *)
Definition no_space_no_at : Regex.re :=
  Regex.Class true [Regex.Space; Regex.Ch "@"].

(** [/^[^\s@]+@[^\s@]+\.[^\s@]+$/] *)
Definition emailRegex : Regex.pattern :=
  Regex.Pattern true
    (Regex.Cat (Regex.Plus no_space_no_at)
      (Regex.Cat (Regex.Lit "@")
        (Regex.Cat (Regex.Plus no_space_no_at)
          (Regex.Cat (Regex.Lit ".")
            (Regex.Plus no_space_no_at)))))
    true.

Definition isValidEmail (email : JS.value) : bool :=
  Regex.test emailRegex (JS.ToString email).


(** ** The database *)

Module Db.

(** Modelled from the spec: the [students] table, whose declaration is not
    part of the sources.  A row has a generated key, three text columns and
    the ready flag; keys are handed out by a counter and start at 1. *)
Record student : Type := Student {
  id : positive;
  name : string;
  email : string;
  request_type : string;
  request_ready : bool
}.

(** Modelled from the spec: the [notifications] table, whose declaration is
    not part of the sources; [sent_at] is a timestamp and [notified_type]
    is the table's [request_type] column. *)
Record notification : Type := Notification {
  student_id : Z;
  email_sent : bool;
  sent_at : Z;
  notified_type : string
}.

Record t : Type := Make {
  students : list student;
  notifications : list notification;
  next_id : positive
}.

(** The statements the handlers send, with their bound parameters. *)
Inductive statement : Type :=
| SelectStudentByEmailAndType (email request_type : JS.value)
    (* SELECT * FROM students WHERE email = ? AND request_type = ? *)
| InsertStudent (name email request_type : JS.value)
    (* INSERT INTO students (name, email, request_type, request_ready)
       VALUES (?, ?, ?, FALSE) *)
| SelectStudents
    (* SELECT * FROM students *)
| SelectContactById (student_id : JS.value)
    (* SELECT email, name, request_type FROM students WHERE id = ? *)
| SelectStudentById (student_id : JS.value)
    (* SELECT * FROM students WHERE id = ? *)
| UpdateStudentReady (student_id : JS.value)
    (* UPDATE students SET request_ready = TRUE WHERE id = ? *)
| InsertNotification (student_id request_type : JS.value)
    (* INSERT INTO notifications (student_id, email_sent, sent_at,
       request_type) VALUES (?, TRUE, NOW(), ?) *)
| DeleteStudentById (student_id : JS.value).
    (* DELETE FROM students WHERE id = ? *)

(** The text a bound parameter stands for in a text column (the handlers
    bind truthy values only; a boolean travels as 1 or 0). *)
Definition sql_text (v : JS.value) : string :=
  match v with
  | JS.Bool true => "1"
  | JS.Bool false => "0"
  | _ => JS.ToString v
  end.

(** [WHERE email = ? AND request_type = ?]; the spec compares the pair for
    identity. *)
Definition same_request (e ty : JS.value) (r : student) : bool :=
  String.eqb (email r) (sql_text e) && String.eqb (request_type r) (sql_text ty).

(** [SET request_ready = TRUE] *)
Definition set_ready (r : student) : student :=
  Student (id r) (name r) (email r) (request_type r) true.

Section Statements.

(** The integer the server reads a bound parameter as, when it compares it
    with the key column or stores it in [notifications.student_id]; [None]
    when it reads none.  The conversion belongs to the driver and the
    server, not to the sources, and is left open. *)
Variable sql_int : JS.value -> option Z.

(** [WHERE id = ?] *)
Definition id_is (v : JS.value) (r : student) : bool :=
  match sql_int v with
  | Some z => (z =? Zpos (id r))%Z
  | None => false
  end.

(** [INSERT INTO students (name, email, request_type, request_ready)
    VALUES (?, ?, ?, FALSE)] *)
Definition insert_student (n e ty : JS.value) (d : t) : t :=
  Make (students d ++
          [Student (next_id d) (sql_text n) (sql_text e) (sql_text ty) false])
       (notifications d)
       (Pos.succ (next_id d)).

(** [UPDATE students SET request_ready = TRUE WHERE id = ?] *)
Definition update_ready (v : JS.value) (d : t) : t :=
  Make (List.map (fun r => if id_is v r then set_ready r else r) (students d))
       (notifications d)
       (next_id d).

(** [INSERT INTO notifications (student_id, email_sent, sent_at,
    request_type) VALUES (?, TRUE, NOW(), ?)], the key being read as [z]. *)
Definition insert_notification (z now : Z) (ty : JS.value) (d : t) : t :=
  Make (students d)
       (notifications d ++ [Notification z true now (sql_text ty)])
       (next_id d).

(** [DELETE FROM students WHERE id = ?] *)
Definition delete_by_id (v : JS.value) (d : t) : t :=
  Make (List.filter (fun r => negb (id_is v r)) (students d))
       (notifications d)
       (next_id d).

(** The rows a statement returns and the database it leaves; [None] when
    the server rejects it.  (A look-up that names three columns returns
    the rows whole here; its caller reads those three columns only.) *)
Definition run (now : Z) (q : statement) (d : t) : option (list student * t) :=
  match q with
  | SelectStudentByEmailAndType e ty =>
      Some (List.filter (same_request e ty) (students d), d)
  | InsertStudent n e ty =>
      Some ([], insert_student n e ty d)
  | SelectStudents =>
      Some (students d, d)
  | SelectContactById v =>
      Some (List.filter (id_is v) (students d), d)
  | SelectStudentById v =>
      Some (List.filter (id_is v) (students d), d)
  | UpdateStudentReady v =>
      Some ([], update_ready v d)
  | InsertNotification v ty =>
      match sql_int v with
      | Some z => Some ([], insert_notification z now ty d)
      | None => None
      end
  | DeleteStudentById v =>
      Some ([], delete_by_id v d)
  end.

End Statements.

End Db.

(** ** The server *)

Module Server.

(** What one request meets outside the process: whether the mail transport
    accepts the message, whether the database carries out the k-th
    statement of the request (counted from 0), and the server's clock. *)
Record env : Type := Env {
  mail_up : bool;
  db_up : nat -> bool;
  now : Z
}.

(** The calls a handler makes to the outside, in order. *)
Inductive effect : Type :=
| Query (q : Db.statement)
| Mail (to : JS.value) (subject text : string).

Record world : Type := World {
  database : Db.t;
  trace : list effect;
  issued : nat
}.

(** An awaited promise resolves to a value or rejects. *)
Inductive outcome (A : Type) : Type :=
| Returned (a : A)
| Thrown.

Arguments Returned {A} a.
Arguments Thrown {A}.

Definition M (A : Type) : Type := env -> world -> outcome A * world.

Definition ret {A : Type} (a : A) : M A :=
  fun _ w => (Returned a, w).

Definition bind {A B : Type} (m : M A) (k : A -> M B) : M B :=
  fun e w =>
    match m e w with
    | (Returned a, w') => k a e w'
    | (Thrown, w') => (Thrown, w')
    end.

(** [try { body } catch (err) { handler }] *)
Definition try_catch {A : Type} (body handler : M A) : M A :=
  fun e w =>
    match body e w with
    | (Returned a, w') => (Returned a, w')
    | (Thrown, w') => handler e w'
    end.

Notation "'let*' x ':=' m 'in' k" := (bind m (fun x => k))
  (at level 10, x name, m at level 100, k at level 200).
Notation "'await' m 'in' k" := (bind m (fun _ => k))
  (at level 10, m at level 100, k at level 200).

(** Status and JSON body of a reply. *)
Inductive payload : Type :=
| Error (error : string)
| Message (message : string)
| Rows (rows : list Db.student).

Record response : Type := Response {
  status : Z;
  json : payload
}.

(** [transporter.sendMail({ from, to, subject, text })] *)
Definition sendMail (to : JS.value) (subject text : string) : M unit :=
  fun e w =>
    let w' := World (database w) (trace w ++ [Mail to subject text]) (issued w) in
    if mail_up e then (Returned tt, w') else (Thrown, w').

(** [sendEmail]: a rejected send is turned into [false]. *)
Definition sendEmail (email : JS.value) (subject text : string) : M bool :=
  try_catch (await sendMail email subject text in ret true) (ret false).

Definition nl : string := String "010" EmptyString.

Section Handlers.

Variable sql_int : JS.value -> option Z.

(** [db.execute(sql, params)] *)
Definition execute (q : Db.statement) : M (list Db.student) :=
  fun e w =>
    let sent := (trace w ++ [Query q])%list in
    if db_up e (issued w) then
      match Db.run sql_int (now e) q (database w) with
      | Some (rows, d') => (Returned rows, World d' sent (S (issued w)))
      | None => (Thrown, World (database w) sent (S (issued w)))
      end
    else (Thrown, World (database w) sent (S (issued w))).

(** [app.post("/add-student")] *)
Definition add_student (body : JS.object) : M response :=
  let name := JS.get body "name" in
  let email := JS.get body "email" in
  let request_type := JS.get body "request_type" in
  if JS.not name || JS.not email || JS.not request_type then
    ret (Response 400 (Error "Name, email, and request type are required"))
  else if negb (isValidEmail email) then
    ret (Response 400 (Error "Invalid email format"))
  else if negb (JS.includes [JS.Str "transcript"; JS.Str "recommendation_letter"]
                            request_type) then
    ret (Response 400 (Error "Invalid request type."))
  else
    try_catch
      (let* existing := execute (Db.SelectStudentByEmailAndType email request_type) in
       if (0 <? List.length existing)%nat then
         ret (Response 400 (Error "Request already exists for this student."))
       else
         await execute (Db.InsertStudent name email request_type) in
         let* emailSent := sendEmail email "Application Received"
                        ("Hello " ++ JS.ToString name ++ "," ++ nl ++ nl ++
                         "We have received your application for a " ++
                         JS.ToString request_type ++
                         ". You will be notified when it is ready.") in
         if negb emailSent then
           ret (Response 500 (Error "Email service unavailable."))
         else
           ret (Response 201 (Message "Student added and confirmation email sent!")))
      (ret (Response 500 (Error "Server error"))).

(** [app.get("/students")] *)
Definition get_students : M response :=
  try_catch
    (let* results := execute Db.SelectStudents in
     ret (Response 200 (Rows results)))
    (ret (Response 500 (Error "Failed to fetch students"))).

(** [app.post("/mark-ready")] *)
Definition mark_ready (body : JS.object) : M response :=
  let student_id := JS.get body "student_id" in
  if JS.not student_id then
    ret (Response 400 (Error "Student ID is required"))
  else
    try_catch
      (let* studentResult := execute (Db.SelectContactById student_id) in
       match studentResult with
       | [] => ret (Response 404 (Error "Student not found"))
       | row :: _ =>
           let email := Db.email row in
           let name := Db.name row in
           let request_type := Db.request_type row in
           await execute (Db.UpdateStudentReady student_id) in
           let subject := "Your " ++ JS.replace "_" " " request_type ++ " is Ready" in
           let text := "Hello " ++ name ++ "," ++ nl ++ nl ++ "Your " ++
                       JS.replace "_" " " request_type ++
                       " is now ready for collection." in
           let* emailSent := sendEmail (JS.Str email) subject text in
           if negb emailSent then
             ret (Response 500 (Error "Failed to send email."))
           else
             await execute (Db.InsertNotification student_id (JS.Str request_type)) in
             ret (Response 200
                    (Message "Request marked as ready, email sent, and notification logged!"))
       end)
      (ret (Response 500 (Error "Server error"))).

(** [app.delete("/delete-student")] *)
Definition delete_student (body : JS.object) : M response :=
  let student_id := JS.get body "student_id" in
  if JS.not student_id then
    ret (Response 400 (Error "Student ID is required"))
  else
    try_catch
      (let* studentResult := execute (Db.SelectStudentById student_id) in
       match studentResult with
       | [] => ret (Response 404 (Error "Student not found"))
       | _ :: _ =>
           await execute (Db.DeleteStudentById student_id) in
           ret (Response 200 (Message "Student deleted successfully!"))
       end)
      (ret (Response 500 (Error "Server error while deleting student"))).

(** The requests the routes answer. *)
Inductive request : Type :=
| AddStudent (body : JS.object)
| GetStudents
| MarkReady (body : JS.object)
| DeleteStudent (body : JS.object).

Definition route (rq : request) : M response :=
  match rq with
  | AddStudent body => add_student body
  | GetStudents => get_students
  | MarkReady body => mark_ready body
  | DeleteStudent body => delete_student body
  end.

(** One request served on the database [d]: the reply, the database
    afterwards, and the calls made on the way. *)
Record served : Type := Served {
  reply : outcome response;
  after : Db.t;
  calls : list effect
}.

Definition handle (e : env) (rq : request) (d : Db.t) : served :=
  let '(o, w) := route rq e (World d [] 0) in
  Served o (database w) (trace w).

(** Requests served one after the other. *)
Fixpoint serve (rqs : list (env * request)) (d : Db.t) : Db.t :=
  match rqs with
  | [] => d
  | (e, rq) :: rest => serve rest (after (handle e rq d))
  end.

End Handlers.

End Server.

(** ** Sample surroundings, used to run the handlers on concrete requests *)

(** A conversion that reads a number as itself and nothing else as an
    integer. *)
Definition numbers_only (v : JS.value) : option Z :=
  match v with
  | JS.Num n => Some n
  | _ => None
  end.

(** Everything works: the mail is accepted and every statement runs. *)
Definition all_up : Server.env := Server.Env true (fun _ => true) 1700000000.

(** The database runs, the mail transport rejects. *)
Definition mail_down : Server.env := Server.Env false (fun _ => true) 1700000000.

Definition empty_db : Db.t := Db.Make [] [] 1.

Definition alice : JS.object :=
  <["name" := JS.Str "Alice"]>
    (<["email" := JS.Str "a@b.com"]>
      (<["request_type" := JS.Str "transcript"]> ∅)).

Definition with_id (v : JS.value) : JS.object := <["student_id" := v]> ∅.

(** Alice's request without its [name]. *)
Definition no_name : JS.object :=
  <["email" := JS.Str "a@b.com"]> (<["request_type" := JS.Str "transcript"]> ∅).




(** An empty name and a zero id, both present. *)
Definition falsy_body : JS.object :=
  <["name" := JS.Str EmptyString]> (<["student_id" := JS.Num 0]> ∅).

Definition alice_row : Db.student :=
  Db.Student 1 "Alice" "a@b.com" "transcript" false.

Definition alice_ready : Db.student :=
  Db.Student 1 "Alice" "a@b.com" "transcript" true.

(** The table after Alice registered, and after her request was marked
    ready once. *)
Definition one_student : Db.t := Db.Make [alice_row] [] 2.

Definition one_ready : Db.t :=
  Db.Make [alice_ready] [Db.Notification 1 true 1700000000 "transcript"] 2.

(** The database rejects every statement (the connection is not there). *)
Definition db_down : Server.env := Server.Env true (fun _ => false) 1700000000.

(** The database rejects the second statement of a request only. *)
Definition second_rejected : Server.env :=
  Server.Env true (fun k => negb (k =? 1)%nat) 1700000000.

(** The database rejects the third statement of a request only. *)
Definition third_rejected : Server.env :=
  Server.Env true (fun k => negb (k =? 2)%nat) 1700000000.

(** ** Vocabulary of the properties *)

(** Every statement of the request is carried out by the database. *)
Definition db_runs (e : Server.env) : Prop :=
  forall k, Server.db_up e k = true.

(** The body passes the three checks that open [/add-student]. *)
Definition validated (body : JS.object) : Prop :=
  JS.truthy (JS.get body "name") = true /\
  JS.truthy (JS.get body "email") = true /\
  JS.truthy (JS.get body "request_type") = true /\
  isValidEmail (JS.get body "email") = true /\
  JS.includes [JS.Str "transcript"; JS.Str "recommendation_letter"]
              (JS.get body "request_type") = true.

(** The (email, request_type) pair of a row. *)
Definition request_key (r : Db.student) : string * string :=
  (Db.email r, Db.request_type r).

(** At most one row per (email, request_type) pair. *)
Definition unique_requests (d : Db.t) : Prop :=
  List.NoDup (List.map request_key (Db.students d)).

(** The text of the confirmation mail of [/add-student]. *)
Definition received_text (name request_type : JS.value) : string :=
  "Hello " ++ JS.ToString name ++ "," ++ Server.nl ++ Server.nl ++
  "We have received your application for a " ++ JS.ToString request_type ++
  ". You will be notified when it is ready.".

(** Subject and text of the mail of [/mark-ready]. *)
Definition ready_subject (request_type : string) : string :=
  "Your " ++ JS.replace "_" " " request_type ++ " is Ready".

Definition ready_text (name request_type : string) : string :=
  "Hello " ++ name ++ "," ++ Server.nl ++ Server.nl ++ "Your " ++
  JS.replace "_" " " request_type ++ " is now ready for collection.".

(** Whether a request is a [/mark-ready] request answered 200, and how
    many requests of a run are. *)
Definition marked_ready (sql_int : JS.value -> option Z)
    (e : Server.env) (rq : Server.request) (d : Db.t) : bool :=
  match rq, Server.reply (Server.handle sql_int e rq d) with
  | Server.MarkReady _, Server.Returned r => (Server.status r =? 200)%Z
  | _, _ => false
  end.

Fixpoint count_marked_ready (sql_int : JS.value -> option Z)
    (rqs : list (Server.env * Server.request)) (d : Db.t) : nat :=
  match rqs with
  | [] => 0
  | (e, rq) :: rest =>
      ((if marked_ready sql_int e rq d then 1 else 0) +
       count_marked_ready sql_int rest (Server.after (Server.handle sql_int e rq d)))%nat
  end.

(** The shape [local@domain.tld] the spec gives for an e-mail address:
    three non-empty runs of characters that are neither white space nor
    [@], joined by one [@] and one dot. *)
Definition plain (c : ascii) : Prop :=
  Regex.is_space c = false /\ c <> "@"%char.

Definition email_shape (s : list ascii) : Prop :=
  exists l d t : list ascii,
    s = (l ++ "@"%char :: d ++ "."%char :: t)%list /\
    l <> [] /\ d <> [] /\ t <> [] /\
    Forall plain l /\ Forall plain d /\ Forall plain t.

(** * Properties *)

(** ** The matcher agrees with the denotation *)

Module RegexFacts.
Import Regex.

Create HintDb re.
#[local] Hint Constructors denotes : re.

Lemma denotes_void s : ~ denotes Void s.
Proof. intros H; inversion H. Qed.

Lemma denotes_eps s : denotes Eps s -> s = [].
Proof. intros H; inversion H; reflexivity. Qed.

Lemma denotes_cat r1 r2 s :
  denotes (Cat r1 r2) s ->
  exists u v, s = (u ++ v)%list /\ denotes r1 u /\ denotes r2 v.
Proof. intros H; inversion H; subst; eauto. Qed.

Lemma denotes_alt r1 r2 s :
  denotes (Alt r1 r2) s -> denotes r1 s \/ denotes r2 s.
Proof. intros H; inversion H; subst; auto. Qed.

Lemma denotes_plus r s :
  denotes (Plus r) s ->
  exists u v, s = (u ++ v)%list /\ denotes r u /\ denotes (Star r) v.
Proof. intros H; inversion H; subst; eauto. Qed.

Lemma nullable_denotes r : nullable r = true <-> denotes r [].
Proof.
  induction r; simpl; split; intros H;
    try discriminate; try (inversion H; fail); auto with re.
  - apply andb_true_iff in H as [H1 H2].
    change (@nil ascii) with (@nil ascii ++ [])%list.
    constructor; [apply IHr1 | apply IHr2]; assumption.
  - apply denotes_cat in H as (u & v & E & H1 & H2).
    symmetry in E. apply app_eq_nil in E as [-> ->].
    apply andb_true_iff; split; [apply IHr1 | apply IHr2]; assumption.
  - apply orb_true_iff in H as [H | H];
      [apply d_alt_l, IHr1 | apply d_alt_r, IHr2]; assumption.
  - apply orb_true_iff.
    apply denotes_alt in H as [H | H]; [left; apply IHr1 | right; apply IHr2]; assumption.
  - change (@nil ascii) with (@nil ascii ++ [])%list.
    constructor; [apply IHr; assumption | constructor].
  - apply denotes_plus in H as (u & v & E & H1 & H2).
    symmetry in E. apply app_eq_nil in E as [-> ->].
    apply IHr; assumption.
Qed.

(** A word of the derivative, with the character in front, is a word of
    the expression. *)
Lemma deriv_sound c r : forall s, denotes (deriv c r) s -> denotes r (c :: s).
Proof.
  induction r; simpl; intros s H.
  - inversion H.
  - inversion H.
  - apply denotes_eps in H as ->. constructor.
  - destruct (Ascii.eqb c0 c) eqn:E.
    + apply Ascii.eqb_eq in E as ->. apply denotes_eps in H as ->. constructor.
    + inversion H.
  - destruct (class_has negated items c) eqn:E.
    + apply denotes_eps in H as ->. constructor; assumption.
    + inversion H.
  - destruct (nullable r1) eqn:N.
    + apply denotes_alt in H as [H | H].
      * apply denotes_cat in H as (u & v & -> & H1 & H2).
        change (c :: u ++ v)%list with ((c :: u) ++ v)%list. auto with re.
      * change (c :: s) with ([] ++ c :: s)%list.
        constructor; [apply nullable_denotes; assumption | auto].
    + apply denotes_cat in H as (u & v & -> & H1 & H2).
      change (c :: u ++ v)%list with ((c :: u) ++ v)%list. auto with re.
  - apply denotes_alt in H as [H | H]; auto with re.
  - apply denotes_cat in H as (u & v & -> & H1 & H2).
    change (c :: u ++ v)%list with ((c :: u) ++ v)%list. auto with re.
  - apply denotes_cat in H as (u & v & -> & H1 & H2).
    change (c :: u ++ v)%list with ((c :: u) ++ v)%list. auto with re.
Qed.

(** Conversely, a word of the expression that starts with the character
    leaves a word of the derivative. *)
Lemma deriv_complete c r w :
  denotes r w -> forall s, w = c :: s -> denotes (deriv c r) s.
Proof.
  induction 1; intros s E; simpl.
  - discriminate.
  - injection E as <- <-. constructor.
  - injection E as <- <-. rewrite Ascii.eqb_refl. constructor.
  - injection E as <- <-. rewrite H. constructor.
  - destruct u as [| a u]; simpl in E.
    + subst v. apply nullable_denotes in H. rewrite H.
      apply d_alt_r. apply IHdenotes2. reflexivity.
    + injection E as -> <-.
      assert (D : denotes (Cat (deriv c r1) r2) (u ++ v))
        by (constructor; [apply IHdenotes1; reflexivity | assumption]).
      destruct (nullable r1); [apply d_alt_l |]; assumption.
  - apply d_alt_l; auto.
  - apply d_alt_r; auto.
  - discriminate.
  - destruct u as [| a u]; simpl in E.
    + apply IHdenotes2 in E. exact E.
    + injection E as -> <-. constructor; [apply IHdenotes1; reflexivity | assumption].
  - destruct u as [| a u]; simpl in E.
    + apply IHdenotes2 in E. exact E.
    + injection E as -> <-. constructor; [apply IHdenotes1; reflexivity | assumption].
Qed.

Lemma matches_denotes s : forall r, matches r s = true <-> denotes r s.
Proof.
  induction s as [| c s IH]; intros r; simpl.
  - apply nullable_denotes.
  - rewrite IH. split.
    + apply deriv_sound.
    + intros H. eapply deriv_complete; [eassumption | reflexivity].
Qed.

(** [test] returns [true] exactly on the strings that contain a match. *)
Lemma test_found p s : test p s = true <-> found p s.
Proof. apply matches_denotes. Qed.

(** Runs of one bracket expression. *)
Lemma star_class n l w :
  denotes (Star (Class n l)) w <-> Forall (fun c => class_has n l c = true) w.
Proof.
  split.
  - intros H. remember (Star (Class n l)) as r eqn:E.
    induction H; try discriminate.
    + constructor.
    + injection E as ->. inversion H; subst; simpl.
      constructor; [assumption | apply IHdenotes2; reflexivity].
  - induction 1 as [| c w Hc _ IH].
    + constructor.
    + change (c :: w) with ([c] ++ w)%list. auto with re.
Qed.

Lemma plus_class n l w :
  denotes (Plus (Class n l)) w <->
  w <> [] /\ Forall (fun c => class_has n l c = true) w.
Proof.
  split.
  - intros H. apply denotes_plus in H as (u & v & -> & Hu & Hv).
    inversion Hu; subst; simpl. split; [discriminate |].
    constructor; [assumption | apply star_class; assumption].
  - intros [Hne Hall]. destruct Hall as [| c w Hc Hw]; [contradiction |].
    change (c :: w) with ([c] ++ w)%list.
    constructor; [constructor; assumption | apply star_class; assumption].
Qed.

End RegexFacts.

(** ** [isValidEmail] accepts the shape [local@domain.tld] and nothing else *)

Lemma no_space_no_at_plain c :
  Regex.class_has true [Regex.Space; Regex.Ch "@"] c = true <-> plain c.
Proof.
  unfold Regex.class_has, plain. rewrite xorb_true_l.
  cbn [existsb Regex.item_has].
  rewrite orb_false_r, negb_true_iff, orb_false_iff.
  split; intros [H1 H2]; (split; [assumption |]).
  - intros ->. discriminate.
  - apply Ascii.eqb_neq. congruence.
Qed.

Lemma run_plain w :
  Regex.denotes (Regex.Plus no_space_no_at) w <-> w <> [] /\ Forall plain w.
Proof.
  unfold no_space_no_at. rewrite RegexFacts.plus_class.
  split; intros [Hne Hall]; (split; [assumption |]);
    eapply Forall_impl; try eassumption; intros c; apply no_space_no_at_plain.
Qed.

Lemma emailRegex_shape s :
  Regex.found emailRegex s <-> email_shape (list_ascii_of_string s).
Proof.
  unfold Regex.found, email_shape. generalize (list_ascii_of_string s) as w.
  intros w; split.
  - intros H. simpl in H.
    apply RegexFacts.denotes_cat in H as (u0 & v0 & -> & H0 & H).
    apply RegexFacts.denotes_eps in H0 as ->.
    apply RegexFacts.denotes_cat in H as (v1 & u1 & -> & H & H1).
    apply RegexFacts.denotes_eps in H1 as ->.
    apply RegexFacts.denotes_cat in H as (l & v2 & -> & Hl & H).
    apply RegexFacts.denotes_cat in H as (a & v3 & -> & Ha & H).
    apply RegexFacts.denotes_cat in H as (d & v4 & -> & Hd & H).
    apply RegexFacts.denotes_cat in H as (b & t & -> & Hb & Ht).
    inversion Ha; subst. inversion Hb; subst.
    apply run_plain in Hl as [? ?], Hd as [? ?], Ht as [? ?].
    exists l, d, t. simpl. rewrite app_nil_r. auto 10.
  - intros (l & d & t & -> & Hl & Hd & Ht & Pl & Pd & Pt). simpl.
    change (l ++ "@"%char :: d ++ "."%char :: t)%list
      with ([] ++ (l ++ ["@"%char] ++ d ++ ["."%char] ++ t))%list.
    constructor; [constructor |].
    rewrite <- (app_nil_r (l ++ _)).
    constructor; [| constructor].
    repeat (constructor; try (apply run_plain; split; assumption)).
Qed.

(** [isValidEmail] decides the shape on the text of its argument. *)
Lemma isValidEmail_shape v :
  isValidEmail v = true <-> email_shape (list_ascii_of_string (JS.ToString v)).
Proof.
  unfold isValidEmail. rewrite RegexFacts.test_found. apply emailRegex_shape.
Qed.

(** ** The handlers *)

Import Server.

(** Unfolds a handler down to the calls it makes. *)
Ltac unfold_handler :=
  unfold handle, route, add_student, get_students, mark_ready, delete_student.

Ltac unfold_monad :=
  unfold sendEmail, sendMail, execute; unfold try_catch, bind, ret.

Lemma filter_nil_forall {A : Type} (p : A -> bool) (l : list A) :
  List.filter p l = [] <-> (forall x, In x l -> p x = false).
Proof.
  induction l as [| a l IH]; simpl.
  - split; [intros _ x [] | reflexivity].
  - destruct (p a) eqn:E; split.
    + discriminate.
    + intros H. specialize (H a (or_introl eq_refl)). congruence.
    + intros H x [<- | Hx]; [assumption | apply IH; assumption].
    + intros H. apply IH. intros x Hx. apply H. right; assumption.
Qed.



Section HandlerFacts.

Variable sql_int : JS.value -> option Z.

Lemma id_is_spec v r :
  Db.id_is sql_int v r = true <-> sql_int v = Some (Zpos (Db.id r)).
Proof.
  unfold Db.id_is. destruct (sql_int v) as [z |]; split; intros H;
    try discriminate.
  - apply Z.eqb_eq in H. congruence.
  - injection H as ->. apply Z.eqb_refl.
Qed.

Lemma id_is_not v r :
  Db.id_is sql_int v r = false <-> sql_int v <> Some (Zpos (Db.id r)).
Proof.
  rewrite <- id_is_spec. destruct (Db.id_is sql_int v r); split; congruence.
Qed.

(** A body that fails the presence check is answered before anything else
    happens. *)
Lemma add_student_absent e d body :
  JS.truthy (JS.get body "name") = false \/
  JS.truthy (JS.get body "email") = false \/
  JS.truthy (JS.get body "request_type") = false ->
  handle sql_int e (AddStudent body) d =
  Served (Returned (Response 400 (Error "Name, email, and request type are required")))
         d [].
Proof.
  intros H. unfold_handler. unfold JS.not.
  assert (C : negb (JS.truthy (JS.get body "name"))
              || negb (JS.truthy (JS.get body "email"))
              || negb (JS.truthy (JS.get body "request_type")) = true).
  { destruct H as [-> | [-> | ->]]; simpl;
      rewrite ?orb_true_r; reflexivity. }
  rewrite C. reflexivity.
Qed.

Lemma mark_ready_absent e d body :
  JS.truthy (JS.get body "student_id") = false ->
  handle sql_int e (MarkReady body) d =
  Served (Returned (Response 400 (Error "Student ID is required"))) d [].
Proof.
  intros H. unfold_handler. unfold JS.not. rewrite H. reflexivity.
Qed.

Lemma delete_student_absent e d body :
  JS.truthy (JS.get body "student_id") = false ->
  handle sql_int e (DeleteStudent body) d =
  Served (Returned (Response 400 (Error "Student ID is required"))) d [].
Proof.
  intros H. unfold_handler. unfold JS.not. rewrite H. reflexivity.
Qed.

Lemma get_absent (body : JS.object) k : body !! k = None -> JS.get body k = JS.Undefined.
Proof. intros H. unfold JS.get. rewrite H. reflexivity. Qed.

Lemma get_present (body : JS.object) k v : body !! k = Some v -> JS.get body k = v.
Proof. intros H. unfold JS.get. rewrite H. reflexivity. Qed.

(** C7.  An [/add-student] body that lacks [name], [email] or
    [request_type] is answered 400 "Name, email, and request type are
    required"; the database is left as it was and no statement or mail is
    issued. *)
Theorem add_student_missing_field e d body :
  body !! "name" = None \/ body !! "email" = None \/ body !! "request_type" = None ->
  handle sql_int e (AddStudent body) d =
  Served (Returned (Response 400 (Error "Name, email, and request type are required")))
         d [].
Proof.
  intros H. apply add_student_absent.
  destruct H as [H | [H | H]]; rewrite (get_absent _ _ H); auto.
Qed.

(** C9.  Presence is JavaScript truthiness: an [/add-student] body whose
    [name], [email] or [request_type] is the empty string gets the
    missing-field reply, and a [/mark-ready] or [/delete-student] body
    whose [student_id] is 0 or the empty string gets 400 "Student ID is
    required" (not 404); nothing else happens. *)
Theorem falsy_fields_count_as_missing e d body :
  (body !! "name" = Some (JS.Str EmptyString) \/
   body !! "email" = Some (JS.Str EmptyString) \/
   body !! "request_type" = Some (JS.Str EmptyString) ->
   handle sql_int e (AddStudent body) d =
   Served (Returned (Response 400 (Error "Name, email, and request type are required")))
          d []) /\
  (body !! "student_id" = Some (JS.Num 0) \/
   body !! "student_id" = Some (JS.Str EmptyString) ->
   handle sql_int e (MarkReady body) d =
   Served (Returned (Response 400 (Error "Student ID is required"))) d [] /\
   handle sql_int e (DeleteStudent body) d =
   Served (Returned (Response 400 (Error "Student ID is required"))) d []).
Proof.
  split.
  - intros H. apply add_student_absent.
    destruct H as [H | [H | H]]; rewrite (get_present _ _ _ H); auto.
  - intros H.
    assert (F : JS.truthy (JS.get body "student_id") = false)
      by (destruct H as [H | H]; rewrite (get_present _ _ _ H); reflexivity).
    split; [apply mark_ready_absent | apply delete_student_absent]; exact F.
Qed.


Lemma validated_checks body :
  validated body ->
  JS.not (JS.get body "name") || JS.not (JS.get body "email")
  || JS.not (JS.get body "request_type") = false /\
  negb (isValidEmail (JS.get body "email")) = false /\
  negb (JS.includes [JS.Str "transcript"; JS.Str "recommendation_letter"]
                    (JS.get body "request_type")) = false.
Proof.
  intros (Hn & He & Ht & Hv & Hi). unfold JS.not.
  rewrite Hn, He, Ht, Hv, Hi. auto.
Qed.

Lemma same_request_spec e ty r :
  Db.same_request e ty r = true <->
  Db.email r = Db.sql_text e /\ Db.request_type r = Db.sql_text ty.
Proof.
  unfold Db.same_request. rewrite andb_true_iff, !String.eqb_eq. reflexivity.
Qed.

(** C4, as the code has it.  A validated [/add-student] request whose
    (email, request_type) pair is already that of a row is answered 400
    "Request already exists for this student."; the database is left as it
    was, and the only call made is the look-up (no insert, no mail).
    Database statements are taken to run. *)
Theorem add_student_duplicate e d body r :
  db_runs e ->
  validated body ->
  In r (Db.students d) ->
  Db.email r = Db.sql_text (JS.get body "email") ->
  Db.request_type r = Db.sql_text (JS.get body "request_type") ->
  handle sql_int e (AddStudent body) d =
  Served (Returned (Response 400 (Error "Request already exists for this student.")))
         d
         [Query (Db.SelectStudentByEmailAndType (JS.get body "email")
                                                (JS.get body "request_type"))].
Proof.
  intros Hdb Hv Hin Hemail Htype.
  apply validated_checks in Hv as (C1 & C2 & C3).
  unfold_handler. rewrite C1, C2, C3. unfold_monad. cbn. rewrite Hdb.
  destruct (List.filter _ (Db.students d)) as [| x rest] eqn:F.
  - exfalso.
    assert (S : Db.same_request (JS.get body "email") (JS.get body "request_type") r = true)
      by (apply same_request_spec; auto).
    rewrite filter_nil_forall in F. rewrite (F r Hin) in S. discriminate.
  - cbn. destruct d; reflexivity.
Qed.

(** C3.  A validated [/add-student] request whose (email, request_type)
    pair is that of no row, and whose confirmation mail is rejected, is
    answered 500 "Email service unavailable." while the row it inserted,
    with [request_ready] false, stays in the table.  Database statements
    are taken to run. *)
Theorem add_student_mail_failure_keeps_row e d body :
  db_runs e ->
  validated body ->
  (forall r, In r (Db.students d) ->
     ~ (Db.email r = Db.sql_text (JS.get body "email") /\
        Db.request_type r = Db.sql_text (JS.get body "request_type"))) ->
  mail_up e = false ->
  let s := handle sql_int e (AddStudent body) d in
  let row := Db.Student (Db.next_id d)
                        (Db.sql_text (JS.get body "name"))
                        (Db.sql_text (JS.get body "email"))
                        (Db.sql_text (JS.get body "request_type"))
                        false in
  reply s = Returned (Response 500 (Error "Email service unavailable.")) /\
  Db.students (after s) = (Db.students d ++ [row])%list /\
  Db.request_ready row = false.
Proof.
  intros Hdb Hv Hnone Hmail s row. subst s row.
  apply validated_checks in Hv as (C1 & C2 & C3).
  unfold_handler. rewrite C1, C2, C3. unfold_monad. cbn. rewrite Hdb.
  destruct (List.filter _ (Db.students d)) as [| x rest] eqn:F.
  - cbn. rewrite Hdb, Hmail. cbn. auto.
  - exfalso.
    assert (Hx : In x (List.filter
                         (Db.same_request (JS.get body "email") (JS.get body "request_type"))
                         (Db.students d)))
      by (rewrite F; left; reflexivity).
    apply filter_In in Hx as [Hx S]. apply same_request_spec in S.
    exact (Hnone x Hx S).
Qed.

(** *** [/mark-ready] and [/delete-student] once the id is there *)

(** With the parameter read as the key of [r], [WHERE id = ?] selects the
    rows that carry that key. *)
Lemma id_is_key v r x :
  sql_int v = Some (Zpos (Db.id r)) ->
  Db.id_is sql_int v x = (Db.id x =? Db.id r)%positive.
Proof.
  intros H. unfold Db.id_is. rewrite H. simpl. apply Pos.eqb_sym.
Qed.

Lemma set_ready_ready r : Db.request_ready r = true -> Db.set_ready r = r.
Proof. destruct r; simpl; intros ->; reflexivity. Qed.

Lemma mark_ready_unknown e d body :
  JS.truthy (JS.get body "student_id") = true ->
  db_runs e ->
  List.filter (Db.id_is sql_int (JS.get body "student_id")) (Db.students d) = [] ->
  handle sql_int e (MarkReady body) d =
  Served (Returned (Response 404 (Error "Student not found"))) d
         [Query (Db.SelectContactById (JS.get body "student_id"))].
Proof.
  intros Ht Hdb F. unfold_handler. unfold JS.not. rewrite Ht.
  unfold_monad. cbn. rewrite Hdb, F. cbn. destruct d; reflexivity.
Qed.

Lemma mark_ready_known e d body row rest :
  JS.truthy (JS.get body "student_id") = true ->
  db_runs e ->
  List.filter (Db.id_is sql_int (JS.get body "student_id")) (Db.students d) = row :: rest ->
  let s := handle sql_int e (MarkReady body) d in
  let d1 := Db.update_ready sql_int (JS.get body "student_id") d in
  (mail_up e = true ->
   reply s = Returned (Response 200
               (Message "Request marked as ready, email sent, and notification logged!")) /\
   after s = Db.insert_notification (Zpos (Db.id row)) (now e)
                                     (JS.Str (Db.request_type row)) d1) /\
  (mail_up e = false ->
   reply s = Returned (Response 500 (Error "Failed to send email.")) /\
   after s = d1).
Proof.
  intros Ht Hdb F s d1. subst s d1.
  assert (K : sql_int (JS.get body "student_id") = Some (Zpos (Db.id row))).
  { apply id_is_spec.
    assert (Hin : In row (List.filter (Db.id_is sql_int (JS.get body "student_id"))
                                      (Db.students d)))
      by (rewrite F; left; reflexivity).
    apply filter_In in Hin as [_ Hin]. exact Hin. }
  unfold_handler. unfold JS.not. rewrite Ht.
  unfold_monad. cbn. rewrite Hdb, F. cbn. rewrite Hdb.
  split; intros Hmail; rewrite Hmail; cbn.
  - rewrite Hdb, K. cbn. auto.
  - auto.
Qed.

Lemma filter_cons_of_in {A : Type} (p : A -> bool) (l : list A) (x : A) :
  In x l -> p x = true -> exists y rest, List.filter p l = y :: rest.
Proof.
  intros Hin Hp.
  destruct (List.filter p l) as [| y rest] eqn:F; [| eauto].
  rewrite filter_nil_forall in F. rewrite (F x Hin) in Hp. discriminate.
Qed.

Lemma no_row_filter v d :
  (forall r, In r (Db.students d) -> sql_int v <> Some (Zpos (Db.id r))) ->
  List.filter (Db.id_is sql_int v) (Db.students d) = [].
Proof.
  intros H. apply filter_nil_forall. intros x Hx. apply id_is_not. auto.
Qed.

Lemma some_row_filter v d r :
  In r (Db.students d) -> sql_int v = Some (Zpos (Db.id r)) ->
  exists row rest,
    List.filter (Db.id_is sql_int v) (Db.students d) = row :: rest /\
    In row (Db.students d) /\ Db.id row = Db.id r.
Proof.
  intros Hin K.
  destruct (filter_cons_of_in (Db.id_is sql_int v) _ r Hin) as (row & rest & F);
    [apply id_is_spec; assumption |].
  exists row, rest. split; [assumption |].
  assert (Hrow : In row (List.filter (Db.id_is sql_int v) (Db.students d)))
    by (rewrite F; left; reflexivity).
  apply filter_In in Hrow as [Hrow Hid]. split; [assumption |].
  apply id_is_spec in Hid. congruence.
Qed.

Lemma update_ready_rows v d r :
  sql_int v = Some (Zpos (Db.id r)) ->
  Db.students (Db.update_ready sql_int v d) =
  List.map (fun x => if (Db.id x =? Db.id r)%positive then Db.set_ready x else x)
           (Db.students d).
Proof.
  intros K. simpl. apply map_ext. intros x. rewrite (id_is_key _ _ _ K). reflexivity.
Qed.

Lemma readied_rows_ready (l : list Db.student) (k : positive) x :
  In x (List.map (fun y => if (Db.id y =? k)%positive then Db.set_ready y else y) l) ->
  Db.id x = k -> Db.request_ready x = true.
Proof.
  intros Hin Hid. apply in_map_iff in Hin as (y & <- & _).
  destruct (Db.id y =? k)%positive eqn:E; [reflexivity |].
  apply Pos.eqb_neq in E. contradiction.
Qed.

(** C1, as the code has it.  For a [/mark-ready] call whose [student_id]
    is truthy: if no row has that id, the reply is 404 "Student not found"
    and the database is left as it was; if a row has it, [request_ready]
    is set on the rows of that id and on no other, and a notification row
    (that student id, [email_sent] true, the request type of the student)
    is appended exactly when the mail is accepted, with reply 200; when
    the mail is rejected the reply is 500 "Failed to send email.", the
    flag stays set and no notification row is written.  Database
    statements are taken to run. *)
Theorem mark_ready_outcomes e d body sid :
  JS.get body "student_id" = sid ->
  JS.truthy sid = true ->
  db_runs e ->
  let s := handle sql_int e (MarkReady body) d in
  ((forall r, In r (Db.students d) -> sql_int sid <> Some (Zpos (Db.id r))) ->
   reply s = Returned (Response 404 (Error "Student not found")) /\
   after s = d) /\
  (forall r, In r (Db.students d) -> sql_int sid = Some (Zpos (Db.id r)) ->
   Db.students (after s) =
     List.map (fun x => if (Db.id x =? Db.id r)%positive then Db.set_ready x else x)
              (Db.students d) /\
   (forall x, In x (Db.students (after s)) -> Db.id x = Db.id r ->
              Db.request_ready x = true) /\
   (mail_up e = true ->
    reply s = Returned (Response 200
                (Message "Request marked as ready, email sent, and notification logged!")) /\
    exists r0, In r0 (Db.students d) /\ Db.id r0 = Db.id r /\
      Db.notifications (after s) =
        (Db.notifications d ++
           [Db.Notification (Zpos (Db.id r)) true (now e) (Db.request_type r0)])%list) /\
   (mail_up e = false ->
    reply s = Returned (Response 500 (Error "Failed to send email.")) /\
    Db.notifications (after s) = Db.notifications d)).
Proof.
  intros <- Ht Hdb s. subst s. split.
  - intros Hno. rewrite (mark_ready_unknown _ _ _ Ht Hdb (no_row_filter _ _ Hno)).
    auto.
  - intros r Hin K.
    destruct (some_row_filter _ _ _ Hin K) as (row & rest & F & Hrow & Hid).
    destruct (mark_ready_known e d body row rest Ht Hdb F) as [Up Down].
    assert (Rows : Db.students (after (handle sql_int e (MarkReady body) d)) =
                   List.map (fun x => if (Db.id x =? Db.id r)%positive
                                      then Db.set_ready x else x)
                            (Db.students d)).
    { destruct (mail_up e).
      - destruct (Up eq_refl) as [_ ->]. apply (update_ready_rows _ _ _ K).
      - destruct (Down eq_refl) as [_ ->]. apply (update_ready_rows _ _ _ K). }
    split; [exact Rows |]. split; [| split].
    + intros x Hx. rewrite Rows in Hx. eapply readied_rows_ready; eassumption.
    + intros Hmail. destruct (Up Hmail) as [-> ->]. split; [reflexivity |].
      exists row. rewrite <- Hid. auto.
    + intros Hmail. destruct (Down Hmail) as [-> ->]. auto.
Qed.

Lemma delete_student_unknown e d body :
  JS.truthy (JS.get body "student_id") = true ->
  db_runs e ->
  List.filter (Db.id_is sql_int (JS.get body "student_id")) (Db.students d) = [] ->
  handle sql_int e (DeleteStudent body) d =
  Served (Returned (Response 404 (Error "Student not found"))) d
         [Query (Db.SelectStudentById (JS.get body "student_id"))].
Proof.
  intros Ht Hdb F. unfold_handler. unfold JS.not. rewrite Ht.
  unfold_monad. cbn. rewrite Hdb, F. cbn. destruct d; reflexivity.
Qed.

Lemma delete_student_known e d body row rest :
  JS.truthy (JS.get body "student_id") = true ->
  db_runs e ->
  List.filter (Db.id_is sql_int (JS.get body "student_id")) (Db.students d) = row :: rest ->
  handle sql_int e (DeleteStudent body) d =
  Served (Returned (Response 200 (Message "Student deleted successfully!")))
         (Db.delete_by_id sql_int (JS.get body "student_id") d)
         [Query (Db.SelectStudentById (JS.get body "student_id"));
          Query (Db.DeleteStudentById (JS.get body "student_id"))].
Proof.
  intros Ht Hdb F. unfold_handler. unfold JS.not. rewrite Ht.
  unfold_monad. cbn. rewrite Hdb, F. cbn. rewrite Hdb. reflexivity.
Qed.

Lemma get_students_lists e d :
  db_runs e ->
  handle sql_int e GetStudents d =
  Served (Returned (Response 200 (Rows (Db.students d)))) d [Query Db.SelectStudents].
Proof.
  intros Hdb. unfold_handler. unfold_monad. cbn. rewrite Hdb. cbn.
  destruct d; reflexivity.
Qed.

Lemma delete_by_id_rows v d r :
  sql_int v = Some (Zpos (Db.id r)) ->
  Db.students (Db.delete_by_id sql_int v d) =
  List.filter (fun x => negb (Db.id x =? Db.id r)%positive) (Db.students d).
Proof.
  intros K. simpl. apply filter_ext. intros x. rewrite (id_is_key _ _ _ K). reflexivity.
Qed.

(** C5, as the code has it.  For a [/delete-student] call whose
    [student_id] is truthy: if no row has that id, the reply is 404
    "Student not found" and the database is left as it was; if a row has
    it, the reply is 200 and a following [GET /students] returns the table
    without the rows of that id, every other row being as it was.
    Database statements are taken to run. *)
Theorem delete_student_outcomes e e' d body sid :
  JS.get body "student_id" = sid ->
  JS.truthy sid = true ->
  db_runs e ->
  db_runs e' ->
  let s := handle sql_int e (DeleteStudent body) d in
  ((forall r, In r (Db.students d) -> sql_int sid <> Some (Zpos (Db.id r))) ->
   reply s = Returned (Response 404 (Error "Student not found")) /\
   after s = d) /\
  (forall r, In r (Db.students d) -> sql_int sid = Some (Zpos (Db.id r)) ->
   reply s = Returned (Response 200 (Message "Student deleted successfully!")) /\
   exists rows,
     reply (handle sql_int e' GetStudents (after s)) =
       Returned (Response 200 (Rows rows)) /\
     rows = List.filter (fun x => negb (Db.id x =? Db.id r)%positive) (Db.students d) /\
     (forall x, In x rows -> Db.id x <> Db.id r) /\
     (forall x, Db.id x <> Db.id r -> (In x rows <-> In x (Db.students d)))).
Proof.
  intros <- Ht Hdb Hdb' s. subst s. split.
  - intros Hno.
    rewrite (delete_student_unknown _ _ _ Ht Hdb (no_row_filter _ _ Hno)). auto.
  - intros r Hin K.
    destruct (some_row_filter _ _ _ Hin K) as (row & rest & F & _ & _).
    rewrite (delete_student_known _ _ _ _ _ Ht Hdb F). cbn [reply after].
    split; [reflexivity |].
    rewrite (get_students_lists _ _ Hdb'). cbn [reply].
    rewrite (delete_by_id_rows _ _ _ K).
    eexists. split; [reflexivity |]. split; [reflexivity |]. split.
    + intros x Hx. apply filter_In in Hx as [_ Hx].
      apply negb_true_iff, Pos.eqb_neq in Hx. exact Hx.
    + intros x Hx. rewrite filter_In. split; [tauto |].
      intros H. split; [assumption |]. apply negb_true_iff, Pos.eqb_neq. exact Hx.
Qed.

(** One more [/mark-ready] on a row that is ready already. *)
Lemma mark_ready_again_step e d body r :
  (forall v p, JS.truthy v = false -> sql_int v <> Some (Zpos p)) ->
  db_runs e ->
  mail_up e = true ->
  In r (Db.students d) ->
  Db.request_ready r = true ->
  sql_int (JS.get body "student_id") = Some (Zpos (Db.id r)) ->
  let s := handle sql_int e (MarkReady body) d in
  reply s = Returned (Response 200
              (Message "Request marked as ready, email sent, and notification logged!")) /\
  In r (Db.students (after s)) /\
  exists n, Db.notifications (after s) = (Db.notifications d ++ [n])%list /\
            Db.student_id n = Zpos (Db.id r) /\ Db.email_sent n = true.
Proof.
  intros Hfalsy Hdb Hmail Hin Hready K s. subst s.
  assert (Ht : JS.truthy (JS.get body "student_id") = true).
  { destruct (JS.truthy (JS.get body "student_id")) eqn:T; [reflexivity |].
    destruct (Hfalsy _ _ T K). }
  destruct (some_row_filter _ _ _ Hin K) as (row & rest & F & _ & Hid).
  destruct (mark_ready_known e d body row rest Ht Hdb F) as [Up _].
  destruct (Up Hmail) as [-> ->]. split; [reflexivity |]. split.
  - cbn [Db.insert_notification Db.students]. rewrite (update_ready_rows _ _ _ K).
    apply in_map_iff. exists r. split; [| assumption].
    rewrite Pos.eqb_refl. apply set_ready_ready; assumption.
  - eexists. split; [reflexivity |]. simpl. rewrite Hid. auto.
Qed.

(** C10, as the code has it.  [/mark-ready] does not look at the flag:
    on a row whose [request_ready] is already true, a further call with
    that id, the database carrying out its statements and the mail
    accepted, is answered 200 again, leaves the row ready, and appends one
    more notification row for that student; [k] such calls in a row add
    [k] notification rows for the student.  (The database is taken to read
    no falsy value as a key, so that a call with the id of a row passes
    the presence check.) *)
Theorem mark_ready_again e d body sid r :
  (forall v p, JS.truthy v = false -> sql_int v <> Some (Zpos p)) ->
  db_runs e ->
  mail_up e = true ->
  In r (Db.students d) ->
  Db.request_ready r = true ->
  JS.get body "student_id" = sid ->
  sql_int sid = Some (Zpos (Db.id r)) ->
  let s := handle sql_int e (MarkReady body) d in
  let about_r := fun n => (Db.student_id n =? Zpos (Db.id r))%Z in
  reply s = Returned (Response 200
              (Message "Request marked as ready, email sent, and notification logged!")) /\
  In r (Db.students (after s)) /\
  (exists n, Db.notifications (after s) = (Db.notifications d ++ [n])%list /\
             Db.student_id n = Zpos (Db.id r) /\ Db.email_sent n = true) /\
  (forall k,
     List.length (List.filter about_r
        (Db.notifications (serve sql_int (repeat (e, MarkReady body) k) d))) =
     (List.length (List.filter about_r (Db.notifications d)) + k)%nat).
Proof.
  intros Hfalsy Hdb Hmail Hin Hready <- K s about_r. subst s.
  destruct (mark_ready_again_step e d body r Hfalsy Hdb Hmail Hin Hready K)
    as (R & I & N).
  split; [exact R |]. split; [exact I |]. split; [exact N |].
  intros k. clear R I N. revert d Hin.
  induction k as [| k IH]; intros d Hin; simpl.
  - rewrite Nat.add_0_r. reflexivity.
  - destruct (mark_ready_again_step e d body r Hfalsy Hdb Hmail Hin Hready K)
      as (_ & I & n & N & Hn & _).
    rewrite (IH _ I), N, List.filter_app, List.length_app. simpl.
    unfold about_r at 2. rewrite Hn, Z.eqb_refl. simpl. lia.
Qed.

(** *** What a request can do to the database, whatever happens outside *)

Lemma add_student_after e d body :
  let s := handle sql_int e (AddStudent body) d in
  after s = d \/
  (List.filter (Db.same_request (JS.get body "email") (JS.get body "request_type"))
               (Db.students d) = [] /\
   after s = Db.insert_student (JS.get body "name") (JS.get body "email")
                               (JS.get body "request_type") d).
Proof.
  destruct d as [st nt nx]. unfold_handler.
  destruct (_ || _ || _); [left; reflexivity |].
  destruct (negb (isValidEmail _)); [left; reflexivity |].
  destruct (negb (JS.includes _ _)); [left; reflexivity |].
  unfold_monad. cbn.
  destruct (db_up e 0); [| left; reflexivity].
  destruct (List.filter _ st) as [| x rest]; [| left; reflexivity].
  cbn. destruct (db_up e 1); [| left; reflexivity].
  right. destruct (mail_up e); cbn; auto.
Qed.

Lemma get_students_after e d : after (handle sql_int e GetStudents d) = d.
Proof.
  destruct d as [st nt nx]. unfold_handler. unfold_monad. cbn.
  destruct (db_up e 0); reflexivity.
Qed.

Lemma mark_ready_after e d body :
  let s := handle sql_int e (MarkReady body) d in
  let v := JS.get body "student_id" in
  after s = d \/
  after s = Db.update_ready sql_int v d \/
  (mail_up e = true /\
   reply s = Returned (Response 200
               (Message "Request marked as ready, email sent, and notification logged!")) /\
   (exists to subject text, In (Mail to subject text) (calls s)) /\
   exists z ty,
     after s = Db.insert_notification z (now e) ty (Db.update_ready sql_int v d)).
Proof.
  destruct d as [st nt nx]. unfold_handler.
  destruct (JS.not _); [left; reflexivity |].
  unfold_monad. cbn.
  destruct (db_up e 0); [| left; reflexivity].
  destruct (List.filter _ st) as [| row rest]; [left; reflexivity |].
  cbn. destruct (db_up e 1); [| left; reflexivity].
  destruct (mail_up e); cbn; [| right; left; reflexivity].
  destruct (db_up e 2); [| right; left; reflexivity].
  destruct (sql_int (JS.get body "student_id")) as [z |];
    [| right; left; reflexivity].
  right; right. cbn. repeat split.
  - do 3 eexists. right; right; left. reflexivity.
  - do 2 eexists. reflexivity.
Qed.

Lemma delete_student_after e d body :
  let s := handle sql_int e (DeleteStudent body) d in
  after s = d \/
  after s = Db.delete_by_id sql_int (JS.get body "student_id") d.
Proof.
  destruct d as [st nt nx]. unfold_handler.
  destruct (JS.not _); [left; reflexivity |].
  unfold_monad. cbn.
  destruct (db_up e 0); [| left; reflexivity].
  destruct (List.filter _ st) as [| row rest]; [left; reflexivity |].
  cbn. destruct (db_up e 1); [right | left]; reflexivity.
Qed.

(** Every request is answered: a rejected statement ends in the [catch]
    arm of its handler, never outside it. *)
Lemma try_catch_returns {A : Type} (m : M A) (a : A) e w :
  exists b w', try_catch m (ret a) e w = (Returned b, w').
Proof.
  unfold try_catch, ret. destruct (m e w) as [[b |] w']; eauto.
Qed.

Lemma handle_replies e rq d :
  exists r, reply (handle sql_int e rq d) = Returned r.
Proof.
  unfold handle.
  assert (H : exists r w, route sql_int rq e (World d [] 0) = (Returned r, w)).
  { destruct rq as [body | | body | body]; unfold route.
    - unfold add_student.
      destruct (_ || _ || _); [unfold ret; eauto |].
      destruct (negb (isValidEmail _)); [unfold ret; eauto |].
      destruct (negb (JS.includes _ _)); [unfold ret; eauto |].
      apply try_catch_returns.
    - apply try_catch_returns.
    - unfold mark_ready. destruct (JS.not _); [unfold ret; eauto |].
      apply try_catch_returns.
    - unfold delete_student. destruct (JS.not _); [unfold ret; eauto |].
      apply try_catch_returns. }
  destruct H as (r & w & ->). exists r. reflexivity.
Qed.

(** *** One row per (email, request_type) pair *)

Lemma NoDup_snoc {A : Type} (l : list A) (x : A) :
  List.NoDup l -> ~ In x l -> List.NoDup (l ++ [x]).
Proof.
  induction 1 as [| a l Ha Hl IH]; simpl; intros Hx.
  - constructor; [intros [] | constructor].
  - constructor.
    + rewrite in_app_iff. simpl. intros [H | [H | []]]; [contradiction |].
      apply Hx. left. symmetry. assumption.
    + apply IH. intros H. apply Hx. right. assumption.
Qed.

Lemma NoDup_map_filter {A B : Type} (f : A -> B) (p : A -> bool) (l : list A) :
  List.NoDup (List.map f l) -> List.NoDup (List.map f (List.filter p l)).
Proof.
  induction l as [| a l IH]; simpl; intros H; [constructor |].
  inversion H as [| ? ? Ha Hl]; subst.
  destruct (p a); simpl; [constructor |]; auto.
  intros Hin. apply Ha.
  apply in_map_iff in Hin as (y & E & Hy). apply filter_In in Hy as [Hy _].
  apply in_map_iff. eauto.
Qed.

Lemma insert_student_unique n e ty d :
  List.filter (Db.same_request e ty) (Db.students d) = [] ->
  unique_requests d -> unique_requests (Db.insert_student n e ty d).
Proof.
  unfold unique_requests. intros F U. simpl. rewrite map_app. simpl.
  apply NoDup_snoc; [assumption |].
  intros Hin. apply in_map_iff in Hin as (r & E & Hr).
  rewrite filter_nil_forall in F. specialize (F r Hr).
  unfold request_key in E. simpl in E. injection E as E1 E2.
  assert (S : Db.same_request e ty r = true) by (apply same_request_spec; auto).
  congruence.
Qed.

Lemma update_ready_unique v d :
  unique_requests d -> unique_requests (Db.update_ready sql_int v d).
Proof.
  unfold unique_requests. simpl. rewrite map_map.
  erewrite map_ext; [intros U; exact U |].
  intros r. simpl. destruct (Db.id_is sql_int v r); reflexivity.
Qed.

Lemma delete_by_id_unique v d :
  unique_requests d -> unique_requests (Db.delete_by_id sql_int v d).
Proof. unfold unique_requests. simpl. apply NoDup_map_filter. Qed.

Lemma handle_unique e rq d :
  unique_requests d -> unique_requests (after (handle sql_int e rq d)).
Proof.
  intros U. destruct rq as [body | | body | body].
  - destruct (add_student_after e d body) as [-> | [F ->]];
      [assumption | apply insert_student_unique; assumption].
  - rewrite get_students_after. assumption.
  - destruct (mark_ready_after e d body) as [-> | [-> | (_ & _ & _ & z & ty & ->)]];
      [assumption | apply update_ready_unique; assumption |].
    apply (update_ready_unique (JS.get body "student_id")) in U. exact U.
  - destruct (delete_student_after e d body) as [-> | ->];
      [assumption | apply delete_by_id_unique; assumption].
Qed.

(** C2.  From a table with at most one row per (email, request_type)
    pair, any sequence of register, list, mark-ready and delete requests,
    served one after the other, leads to a table with at most one row per
    pair (whatever the mail transport and the database do to each
    request). *)
Theorem unique_requests_preserved rqs d :
  unique_requests d -> unique_requests (serve sql_int rqs d).
Proof.
  revert d. induction rqs as [| [e rq] rqs IH]; intros d U; simpl.
  - assumption.
  - apply IH, handle_unique, U.
Qed.

(** *** Notification rows *)

Lemma handle_notifications e rq d :
  let s := handle sql_int e rq d in
  Db.notifications (after s) = Db.notifications d \/
  exists body n,
    rq = MarkReady body /\
    mail_up e = true /\
    reply s = Returned (Response 200
                (Message "Request marked as ready, email sent, and notification logged!")) /\
    (exists to subject text, In (Mail to subject text) (calls s)) /\
    Db.notifications (after s) = (Db.notifications d ++ [n])%list /\
    Db.email_sent n = true.
Proof.
  destruct rq as [body | | body | body]; cbv zeta.
  - destruct (add_student_after e d body) as [-> | [_ ->]]; left; reflexivity.
  - rewrite get_students_after. left; reflexivity.
  - destruct (mark_ready_after e d body) as [-> | [-> | (M & R & C & z & ty & E)]];
      [left; reflexivity | left; reflexivity |].
    right. exists body. eexists. rewrite E.
    repeat split; try assumption; try reflexivity.
  - destruct (delete_student_after e d body) as [-> | ->]; left; reflexivity.
Qed.

Lemma serve_notifications rqs d :
  exists added,
    Db.notifications (serve sql_int rqs d) = (Db.notifications d ++ added)%list.
Proof.
  revert d. induction rqs as [| [e rq] rqs IH]; intros d; simpl.
  - exists []. rewrite app_nil_r. reflexivity.
  - destruct (IH (after (handle sql_int e rq d))) as (added & ->).
    destruct (handle_notifications e rq d) as [-> | (body & n & _ & _ & _ & _ & -> & _)].
    + eauto.
    + exists (n :: added). rewrite <- app_assoc. reflexivity.
Qed.

(** C6.  In a sequence of requests served one after the other, the
    notification rows present at any point are still there, unchanged and
    in place, at every later point; and a request that adds a
    notification row is a [/mark-ready] request whose mail was sent and
    accepted (it adds one row, with [email_sent] true, and is answered
    200). *)
Theorem notifications_append_only before e rq later d :
  let d1 := serve sql_int before d in
  let s := handle sql_int e rq d1 in
  let d3 := serve sql_int later (after s) in
  (exists added, Db.notifications d3 = (Db.notifications d1 ++ added)%list) /\
  (Db.notifications (after s) = Db.notifications d1 \/
   exists body n,
     rq = MarkReady body /\
     mail_up e = true /\
     reply s = Returned (Response 200
                 (Message "Request marked as ready, email sent, and notification logged!")) /\
     (exists to subject text, In (Mail to subject text) (calls s)) /\
     Db.notifications (after s) = (Db.notifications d1 ++ [n])%list /\
     Db.email_sent n = true).
Proof.
  intros d1 s d3. split.
  - apply (serve_notifications ((e, rq) :: later) d1).
  - apply handle_notifications.
Qed.

End HandlerFacts.

(** ** The theorems at work on sample requests *)

Lemma all_up_runs : db_runs all_up.
Proof. intros k. reflexivity. Qed.

Lemma mail_down_runs : db_runs mail_down.
Proof. intros k. reflexivity. Qed.

Lemma alice_validated : validated alice.
Proof. unfold validated. vm_compute. repeat split. Qed.

Lemma numbers_only_falsy v p :
  JS.truthy v = false -> numbers_only v <> Some (Zpos p).
Proof.
  destruct v as [| | b | n | s]; simpl; try discriminate.
  intros H. apply negb_false_iff, Z.eqb_eq in H. subst n. discriminate.
Qed.



(** Alice's request without a name. *)
Lemma add_student_missing_field_sample :
  no_name !! "name" = None /\
  handle numbers_only all_up (AddStudent no_name) one_student =
  Served (Returned (Response 400 (Error "Name, email, and request type are required")))
         one_student [].
Proof.
  assert (H : no_name !! "name" = None) by (vm_compute; reflexivity).
  split; [exact H |].
  apply (add_student_missing_field numbers_only all_up one_student no_name).
  left. exact H.
Defined.

(** An empty name and a zero id. *)
Lemma falsy_fields_count_as_missing_sample :
  falsy_body !! "name" = Some (JS.Str EmptyString) /\
  falsy_body !! "student_id" = Some (JS.Num 0) /\
  handle numbers_only all_up (AddStudent falsy_body) one_student =
  Served (Returned (Response 400 (Error "Name, email, and request type are required")))
         one_student [] /\
  handle numbers_only all_up (MarkReady falsy_body) one_student =
  Served (Returned (Response 400 (Error "Student ID is required"))) one_student [] /\
  handle numbers_only all_up (DeleteStudent falsy_body) one_student =
  Served (Returned (Response 400 (Error "Student ID is required"))) one_student [].
Proof.
  assert (Hn : falsy_body !! "name" = Some (JS.Str EmptyString))
    by (vm_compute; reflexivity).
  assert (Hi : falsy_body !! "student_id" = Some (JS.Num 0))
    by (vm_compute; reflexivity).
  destruct (falsy_fields_count_as_missing numbers_only all_up one_student falsy_body)
    as [A B].
  split; [exact Hn |]. split; [exact Hi |].
  split; [apply A; left; exact Hn | apply B; left; exact Hi].
Defined.



(** Alice registers a second time. *)
Lemma add_student_duplicate_sample :
  db_runs all_up /\
  validated alice /\
  In alice_row (Db.students one_student) /\
  handle numbers_only all_up (AddStudent alice) one_student =
  Served (Returned (Response 400 (Error "Request already exists for this student.")))
         one_student
         [Query (Db.SelectStudentByEmailAndType (JS.Str "a@b.com") (JS.Str "transcript"))].
Proof.
  assert (Hin : In alice_row (Db.students one_student)) by (left; reflexivity).
  split; [exact all_up_runs |]. split; [exact alice_validated |].
  split; [exact Hin |].
  exact (add_student_duplicate numbers_only all_up one_student alice alice_row
           all_up_runs alice_validated Hin eq_refl eq_refl).
Defined.

(** C4 as stated fails: the pair of the request has a row, but the name is
    missing and the reply is the missing-field one. *)
Lemma missing_name_masks_duplicate :
  In alice_row (Db.students one_student) /\
  JS.get no_name "email" = JS.Str (Db.email alice_row) /\
  JS.get no_name "request_type" = JS.Str (Db.request_type alice_row) /\
  reply (handle numbers_only all_up (AddStudent no_name) one_student) =
    Returned (Response 400 (Error "Name, email, and request type are required")) /\
  reply (handle numbers_only all_up (AddStudent no_name) one_student) <>
    Returned (Response 400 (Error "Request already exists for this student.")).
Proof.
  repeat split; try (vm_compute; auto; fail).
  vm_compute. discriminate.
Qed.

(** Alice registers while the mail transport is down. *)
Lemma add_student_mail_failure_keeps_row_sample :
  db_runs mail_down /\
  validated alice /\
  mail_up mail_down = false /\
  reply (handle numbers_only mail_down (AddStudent alice) empty_db) =
    Returned (Response 500 (Error "Email service unavailable.")) /\
  Db.students (after (handle numbers_only mail_down (AddStudent alice) empty_db)) =
    [alice_row].
Proof.
  split; [exact mail_down_runs |]. split; [exact alice_validated |].
  split; [reflexivity |].
  destruct (add_student_mail_failure_keeps_row numbers_only mail_down empty_db alice
              mail_down_runs alice_validated
              (fun r (H : In r []) => match H with end) eq_refl)
    as (R & S & _).
  split; [exact R | exact S].
Defined.

(** Alice's request is marked ready, with the mail accepted. *)
Lemma mark_ready_outcomes_sample :
  JS.truthy (JS.Num 1) = true /\
  db_runs all_up /\
  reply (handle numbers_only all_up (MarkReady (with_id (JS.Num 1))) one_student) =
    Returned (Response 200
      (Message "Request marked as ready, email sent, and notification logged!")) /\
  Db.students (after (handle numbers_only all_up (MarkReady (with_id (JS.Num 1))) one_student)) =
    [alice_ready].
Proof.
  split; [reflexivity |]. split; [exact all_up_runs |].
  destruct (mark_ready_outcomes numbers_only all_up one_student (with_id (JS.Num 1))
              (JS.Num 1) eq_refl eq_refl all_up_runs) as [_ Found].
  destruct (Found alice_row (or_introl eq_refl) eq_refl) as (Rows & _ & Up & _).
  destruct (Up eq_refl) as [R _].
  split; [exact R | exact Rows].
Defined.

(** C1 as stated fails: no row has the id 0, but the reply to a
    [/mark-ready] call with that id is 400, not 404. *)
Lemma mark_ready_zero_id_is_not_404 :
  (forall r, In r (Db.students one_student) ->
     numbers_only (JS.get (with_id (JS.Num 0)) "student_id") <> Some (Zpos (Db.id r))) /\
  reply (handle numbers_only all_up (MarkReady (with_id (JS.Num 0))) one_student) =
    Returned (Response 400 (Error "Student ID is required")) /\
  reply (handle numbers_only all_up (MarkReady (with_id (JS.Num 0))) one_student) <>
    Returned (Response 404 (Error "Student not found")).
Proof.
  split; [| split].
  - intros r _. vm_compute. discriminate.
  - vm_compute. reflexivity.
  - vm_compute. discriminate.
Qed.

(** Alice's request is deleted and the table listed. *)
Lemma delete_student_outcomes_sample :
  JS.truthy (JS.Num 1) = true /\
  db_runs all_up /\
  reply (handle numbers_only all_up (DeleteStudent (with_id (JS.Num 1))) one_student) =
    Returned (Response 200 (Message "Student deleted successfully!")) /\
  reply (handle numbers_only all_up GetStudents
           (after (handle numbers_only all_up (DeleteStudent (with_id (JS.Num 1)))
                          one_student))) =
    Returned (Response 200 (Rows [])).
Proof.
  split; [reflexivity |]. split; [exact all_up_runs |].
  destruct (delete_student_outcomes numbers_only all_up all_up one_student
              (with_id (JS.Num 1)) (JS.Num 1) eq_refl eq_refl all_up_runs all_up_runs)
    as [_ Found].
  destruct (Found alice_row (or_introl eq_refl) eq_refl) as (R & rows & L & E & _).
  split; [exact R |]. rewrite L, E. reflexivity.
Defined.

(** C5 as stated fails: no row has the id 0, but the reply to a
    [/delete-student] call with that id is 400, not 404. *)
Lemma delete_student_zero_id_is_not_404 :
  (forall r, In r (Db.students one_student) ->
     numbers_only (JS.get (with_id (JS.Num 0)) "student_id") <> Some (Zpos (Db.id r))) /\
  reply (handle numbers_only all_up (DeleteStudent (with_id (JS.Num 0))) one_student) =
    Returned (Response 400 (Error "Student ID is required")) /\
  reply (handle numbers_only all_up (DeleteStudent (with_id (JS.Num 0))) one_student) <>
    Returned (Response 404 (Error "Student not found")).
Proof.
  split; [| split].
  - intros r _. vm_compute. discriminate.
  - vm_compute. reflexivity.
  - vm_compute. discriminate.
Qed.

(** Alice's request, ready already, is marked ready three more times. *)
Lemma mark_ready_again_sample :
  db_runs all_up /\
  mail_up all_up = true /\
  In alice_ready (Db.students one_ready) /\
  Db.request_ready alice_ready = true /\
  reply (handle numbers_only all_up (MarkReady (with_id (JS.Num 1))) one_ready) =
    Returned (Response 200
      (Message "Request marked as ready, email sent, and notification logged!")) /\
  List.length
    (List.filter (fun n => (Db.student_id n =? 1)%Z)
       (Db.notifications
          (serve numbers_only (repeat (all_up, MarkReady (with_id (JS.Num 1))) 3)
                 one_ready))) = 4%nat.
Proof.
  assert (Hin : In alice_ready (Db.students one_ready)) by (left; reflexivity).
  split; [exact all_up_runs |]. split; [reflexivity |]. split; [exact Hin |].
  split; [reflexivity |].
  destruct (mark_ready_again numbers_only all_up one_ready (with_id (JS.Num 1))
              (JS.Num 1) alice_ready numbers_only_falsy all_up_runs eq_refl Hin
              eq_refl eq_refl eq_refl) as (R & _ & _ & K).
  split; [exact R | exact (K 3%nat)].
Defined.

(** C10 as stated fails: the row is ready, the call carries its id and
    the mail is accepted, but the database rejects the notification
    insert; the reply is 500 "Server error" and no notification row is
    added. *)
Lemma mark_ready_again_insert_rejected :
  In alice_ready (Db.students one_ready) /\
  Db.request_ready alice_ready = true /\
  numbers_only (JS.get (with_id (JS.Num 1)) "student_id") =
    Some (Zpos (Db.id alice_ready)) /\
  mail_up third_rejected = true /\
  reply (handle numbers_only third_rejected (MarkReady (with_id (JS.Num 1))) one_ready) =
    Returned (Response 500 (Error "Server error")) /\
  reply (handle numbers_only third_rejected (MarkReady (with_id (JS.Num 1))) one_ready) <>
    Returned (Response 200
      (Message "Request marked as ready, email sent, and notification logged!")) /\
  Db.notifications
    (after (handle numbers_only third_rejected (MarkReady (with_id (JS.Num 1))) one_ready)) =
    Db.notifications one_ready.
Proof.
  split; [left; reflexivity |].
  repeat split; try (vm_compute; reflexivity).
  vm_compute. discriminate.
Qed.

(** Alice registers twice, is marked ready, and registers again. *)
Lemma unique_requests_preserved_sample :
  unique_requests empty_db /\
  unique_requests
    (serve numbers_only
       [(all_up, AddStudent alice); (mail_down, AddStudent alice);
        (all_up, MarkReady (with_id (JS.Num 1))); (all_up, AddStudent alice)]
       empty_db).
Proof.
  assert (U : unique_requests empty_db) by constructor.
  split; [exact U |].
  apply (unique_requests_preserved numbers_only). exact U.
Defined.

(** The scenario of the spec: Alice registers, registers again, is listed,
    is marked ready, and is deleted. *)
Example alice_scenario :
  let h := handle numbers_only all_up in
  let d1 := after (h (AddStudent alice) empty_db) in
  let d2 := after (h (MarkReady (with_id (JS.Num 1))) d1) in
  let d3 := after (h (DeleteStudent (with_id (JS.Num 1))) d2) in
  reply (h (AddStudent alice) empty_db) =
    Returned (Response 201 (Message "Student added and confirmation email sent!")) /\
  reply (h (AddStudent alice) d1) =
    Returned (Response 400 (Error "Request already exists for this student.")) /\
  reply (h GetStudents d1) = Returned (Response 200 (Rows [alice_row])) /\
  reply (h (MarkReady (with_id (JS.Num 1))) d1) =
    Returned (Response 200
      (Message "Request marked as ready, email sent, and notification logged!")) /\
  reply (h GetStudents d2) = Returned (Response 200 (Rows [alice_ready])) /\
  reply (h (DeleteStudent (with_id (JS.Num 1))) d2) =
    Returned (Response 200 (Message "Student deleted successfully!")) /\
  reply (h GetStudents d3) = Returned (Response 200 (Rows [])).
Proof. vm_compute. repeat split. Qed.

(** * Further properties of the handlers *)

(** ** [isValidEmail] and [sendEmail] *)

(** X1.  On a string, [isValidEmail] returns [true] exactly when the
    string has the shape local@domain.tld: three non-empty runs of
    characters that are neither white space nor [@], joined by one [@] and
    one dot (the runs may themselves contain dots). *)
Theorem isValidEmail_accepts s :
  isValidEmail (JS.Str s) = true <-> email_shape (list_ascii_of_string s).
Proof.
  rewrite isValidEmail_shape. simpl. reflexivity.
Qed.

Lemma count_occ_plain l :
  Forall plain l -> count_occ ascii_dec l "@"%char = 0%nat.
Proof.
  intros H. apply count_occ_not_In. intros Hin.
  rewrite List.Forall_forall in H. destruct (H _ Hin) as [_ Hne]. congruence.
Qed.

Lemma plain_no_space l :
  Forall plain l -> Forall (fun c => Regex.is_space c = false) l.
Proof. apply List.Forall_impl. intros c [H _]. exact H. Qed.

(** X2.  An address that [isValidEmail] accepts contains exactly one [@]
    and no white space, and is at least five characters long. *)
Theorem valid_email_one_at s :
  isValidEmail (JS.Str s) = true ->
  count_occ ascii_dec (list_ascii_of_string s) "@"%char = 1%nat /\
  Forall (fun c => Regex.is_space c = false) (list_ascii_of_string s) /\
  (5 <= List.length (list_ascii_of_string s))%nat.
Proof.
  intros H. apply isValidEmail_shape in H. simpl in H.
  destruct H as (l & d & t & -> & Hl & Hd & Ht & Pl & Pd & Pt).
  split; [| split].
  - rewrite count_occ_app. simpl. rewrite count_occ_app. simpl.
    rewrite !count_occ_plain by assumption. reflexivity.
  - apply List.Forall_app. split; [apply plain_no_space; assumption |].
    constructor; [reflexivity |].
    apply List.Forall_app. split; [apply plain_no_space; assumption |].
    constructor; [reflexivity | apply plain_no_space; assumption].
  - rewrite List.length_app. simpl. rewrite List.length_app. simpl.
    destruct l; [contradiction |]. destruct d; [contradiction |].
    destruct t; [contradiction |]. simpl. lia.
Qed.

(** X3.  [sendEmail] never rejects: it makes one send, returns [true] when
    the transport accepts it and [false] when the transport rejects it,
    and touches neither the database nor the statement count. *)
Theorem sendEmail_swallows_rejection to subject text e w :
  sendEmail to subject text e w =
  (Returned (mail_up e),
   World (database w) (trace w ++ [Mail to subject text]) (issued w)).
Proof.
  unfold sendEmail, sendMail, try_catch, bind, ret.
  destruct (mail_up e); reflexivity.
Qed.

(** ** Registration *)

Section MoreHandlerFacts.

Variable sql_int : JS.value -> option Z.


Lemma no_pair_filter e ty d :
  (forall r, In r (Db.students d) ->
     ~ (Db.email r = Db.sql_text e /\ Db.request_type r = Db.sql_text ty)) ->
  List.filter (Db.same_request e ty) (Db.students d) = [].
Proof.
  intros H. apply filter_nil_forall. intros x Hx.
  destruct (Db.same_request e ty x) eqn:S; [| reflexivity].
  apply same_request_spec in S. destruct (H x Hx S).
Qed.

Lemma add_student_fresh e d body :
  db_runs e ->
  validated body ->
  List.filter (Db.same_request (JS.get body "email") (JS.get body "request_type"))
              (Db.students d) = [] ->
  handle sql_int e (AddStudent body) d =
  Served (Returned (if mail_up e
                    then Response 201 (Message "Student added and confirmation email sent!")
                    else Response 500 (Error "Email service unavailable.")))
         (Db.insert_student (JS.get body "name") (JS.get body "email")
                            (JS.get body "request_type") d)
         [Query (Db.SelectStudentByEmailAndType (JS.get body "email")
                                                (JS.get body "request_type"));
          Query (Db.InsertStudent (JS.get body "name") (JS.get body "email")
                                  (JS.get body "request_type"));
          Mail (JS.get body "email") "Application Received"
               (received_text (JS.get body "name") (JS.get body "request_type"))].
Proof.
  intros Hdb Hv F. apply validated_checks in Hv as (C1 & C2 & C3).
  unfold_handler. rewrite C1, C2, C3. unfold_monad. cbn. rewrite Hdb, F. cbn.
  rewrite Hdb. destruct (mail_up e); reflexivity.
Qed.

Lemma add_student_existing e d body r :
  db_runs e ->
  validated body ->
  In r (Db.students d) ->
  Db.same_request (JS.get body "email") (JS.get body "request_type") r = true ->
  handle sql_int e (AddStudent body) d =
  Served (Returned (Response 400 (Error "Request already exists for this student.")))
         d
         [Query (Db.SelectStudentByEmailAndType (JS.get body "email")
                                                (JS.get body "request_type"))].
Proof.
  intros Hdb Hv Hin S. apply validated_checks in Hv as (C1 & C2 & C3).
  destruct (filter_cons_of_in _ _ _ Hin S) as (x & rest & F).
  unfold_handler. rewrite C1, C2, C3. unfold_monad. cbn. rewrite Hdb, F. cbn.
  destruct d; reflexivity.
Qed.


(** X5.  With the database running for both attempts, sending a validated
    [/add-student] request a second time is answered 400 "Request already
    exists for this student." and changes nothing, whether the first
    attempt was answered 201 or, its mail rejected, 500: the row of the
    first attempt is there in both cases. *)
Theorem add_student_twice e1 e2 d body :
  db_runs e1 ->
  db_runs e2 ->
  validated body ->
  (forall r, In r (Db.students d) ->
     ~ (Db.email r = Db.sql_text (JS.get body "email") /\
        Db.request_type r = Db.sql_text (JS.get body "request_type"))) ->
  let d1 := after (handle sql_int e1 (AddStudent body) d) in
  let s2 := handle sql_int e2 (AddStudent body) d1 in
  reply s2 = Returned (Response 400 (Error "Request already exists for this student.")) /\
  after s2 = d1.
Proof.
  intros Hdb1 Hdb2 Hv Hnone d1 s2. subst s2 d1.
  rewrite (add_student_fresh e1 d body Hdb1 Hv (no_pair_filter _ _ _ Hnone)).
  cbn [after].
  erewrite add_student_existing; [split; reflexivity | assumption | assumption | |].
  - cbn. apply in_app_iff. right. left. reflexivity.
  - apply same_request_spec. split; reflexivity.
Qed.

(** X6.  With the database running for both requests: after a validated
    [/add-student] request for a pair that has no row, mail accepted or
    not, [GET /students] is answered 200 with the rows that were there and
    the new row, not ready, and no other: one row more than before. *)
Theorem add_student_then_list e e' d body :
  db_runs e ->
  db_runs e' ->
  validated body ->
  (forall r, In r (Db.students d) ->
     ~ (Db.email r = Db.sql_text (JS.get body "email") /\
        Db.request_type r = Db.sql_text (JS.get body "request_type"))) ->
  exists rows,
    reply (handle sql_int e' GetStudents (after (handle sql_int e (AddStudent body) d))) =
      Returned (Response 200 (Rows rows)) /\
    List.length rows = S (List.length (Db.students d)) /\
    (forall x,
       In x rows <->
       In x (Db.students d) \/
       x = Db.Student (Db.next_id d)
                      (Db.sql_text (JS.get body "name"))
                      (Db.sql_text (JS.get body "email"))
                      (Db.sql_text (JS.get body "request_type"))
                      false).
Proof.
  intros Hdb Hdb' Hv Hnone.
  rewrite (add_student_fresh e d body Hdb Hv (no_pair_filter _ _ _ Hnone)).
  cbn [after]. rewrite (get_students_lists sql_int _ _ Hdb'). cbn [reply].
  eexists. split; [reflexivity |]. cbn [Db.insert_student Db.students]. split.
  - rewrite List.length_app. simpl. lia.
  - intros x. rewrite in_app_iff. simpl. split.
    + intros [H | [H | []]]; auto.
    + intros [H | H]; auto.
Qed.

(** ** Rejected statements *)

(** X7.  When the database rejects the first statement of a request, the
    request is answered 500 with the message of its route ("Server error"
    for [/add-student] and [/mark-ready], "Failed to fetch students" for
    [/students], "Server error while deleting student" for
    [/delete-student]); the database is left as it was and no mail is
    sent.  Validation comes first: this concerns validated bodies and
    truthy ids. *)
Theorem first_statement_rejected e d :
  db_up e 0 = false ->
  (forall body, validated body ->
     handle sql_int e (AddStudent body) d =
     Served (Returned (Response 500 (Error "Server error"))) d
            [Query (Db.SelectStudentByEmailAndType (JS.get body "email")
                                                   (JS.get body "request_type"))]) /\
  handle sql_int e GetStudents d =
    Served (Returned (Response 500 (Error "Failed to fetch students"))) d
           [Query Db.SelectStudents] /\
  (forall body, JS.truthy (JS.get body "student_id") = true ->
     handle sql_int e (MarkReady body) d =
     Served (Returned (Response 500 (Error "Server error"))) d
            [Query (Db.SelectContactById (JS.get body "student_id"))]) /\
  (forall body, JS.truthy (JS.get body "student_id") = true ->
     handle sql_int e (DeleteStudent body) d =
     Served (Returned (Response 500 (Error "Server error while deleting student"))) d
            [Query (Db.SelectStudentById (JS.get body "student_id"))]).
Proof.
  intros Hdown. destruct d as [st nt nx]. repeat split.
  - intros body Hv. apply validated_checks in Hv as (C1 & C2 & C3).
    unfold_handler. rewrite C1, C2, C3. unfold_monad. cbn. rewrite Hdown. reflexivity.
  - unfold_handler. unfold_monad. cbn. rewrite Hdown. reflexivity.
  - intros body Ht. unfold_handler. unfold JS.not. rewrite Ht.
    unfold_monad. cbn. rewrite Hdown. reflexivity.
  - intros body Ht. unfold_handler. unfold JS.not. rewrite Ht.
    unfold_monad. cbn. rewrite Hdown. reflexivity.
Qed.

(** X8.  [/mark-ready] on a known id stops at the first rejected
    statement and answers 500 "Server error".  If the update is rejected,
    nothing has changed and no mail is sent.  If the update runs, the mail
    is accepted and the notification insert is rejected, the flag is set
    and the mail has gone out, but no notification row is written. *)
Theorem mark_ready_rejected_midway e d body row rest :
  JS.truthy (JS.get body "student_id") = true ->
  db_up e 0 = true ->
  List.filter (Db.id_is sql_int (JS.get body "student_id")) (Db.students d) = row :: rest ->
  let sid := JS.get body "student_id" in
  let s := handle sql_int e (MarkReady body) d in
  (db_up e 1 = false ->
   s = Served (Returned (Response 500 (Error "Server error"))) d
              [Query (Db.SelectContactById sid); Query (Db.UpdateStudentReady sid)]) /\
  (db_up e 1 = true -> mail_up e = true -> db_up e 2 = false ->
   s = Served (Returned (Response 500 (Error "Server error")))
              (Db.update_ready sql_int sid d)
              [Query (Db.SelectContactById sid);
               Query (Db.UpdateStudentReady sid);
               Mail (JS.Str (Db.email row))
                    (ready_subject (Db.request_type row))
                    (ready_text (Db.name row) (Db.request_type row));
               Query (Db.InsertNotification sid (JS.Str (Db.request_type row)))]).
Proof.
  intros Ht H0 F sid s. subst sid s. destruct d as [st nt nx]. cbn in F. split.
  - intros H1. unfold_handler. unfold JS.not. rewrite Ht.
    unfold_monad. cbn. rewrite H0, F. cbn. rewrite H1. reflexivity.
  - intros H1 Hm H2. unfold_handler. unfold JS.not. rewrite Ht.
    unfold_monad. cbn. rewrite H0, F. cbn. rewrite H1, Hm. cbn. rewrite H2.
    reflexivity.
Qed.

(** X9.  A rejected write leaves the table as it was.  When the insert of
    a validated [/add-student] request is rejected, the reply is 500
    "Server error", no row is added and no mail is sent; when the delete of
    [/delete-student] is rejected, the reply is 500 "Server error while
    deleting student" and the rows are still there. *)
Theorem rejected_write_changes_nothing e d :
  db_up e 0 = true ->
  db_up e 1 = false ->
  (forall body,
     validated body ->
     List.filter (Db.same_request (JS.get body "email") (JS.get body "request_type"))
                 (Db.students d) = [] ->
     handle sql_int e (AddStudent body) d =
     Served (Returned (Response 500 (Error "Server error"))) d
            [Query (Db.SelectStudentByEmailAndType (JS.get body "email")
                                                   (JS.get body "request_type"));
             Query (Db.InsertStudent (JS.get body "name") (JS.get body "email")
                                     (JS.get body "request_type"))]) /\
  (forall body row rest,
     JS.truthy (JS.get body "student_id") = true ->
     List.filter (Db.id_is sql_int (JS.get body "student_id")) (Db.students d) = row :: rest ->
     handle sql_int e (DeleteStudent body) d =
     Served (Returned (Response 500 (Error "Server error while deleting student"))) d
            [Query (Db.SelectStudentById (JS.get body "student_id"));
             Query (Db.DeleteStudentById (JS.get body "student_id"))]).
Proof.
  intros H0 H1. destruct d as [st nt nx]. split.
  - intros body Hv F. apply validated_checks in Hv as (C1 & C2 & C3). cbn in F.
    unfold_handler. rewrite C1, C2, C3. unfold_monad. cbn. rewrite H0, F. cbn.
    rewrite H1. reflexivity.
  - intros body row rest Ht F. cbn in F.
    unfold_handler. unfold JS.not. rewrite Ht.
    unfold_monad. cbn. rewrite H0, F. cbn. rewrite H1. reflexivity.
Qed.

(** ** After a delete *)

Lemma deleted_rows_gone v d :
  List.filter (Db.id_is sql_int v) (Db.students (Db.delete_by_id sql_int v d)) = [].
Proof.
  apply filter_nil_forall. intros x Hx. simpl in Hx.
  apply filter_In in Hx as [_ Hx]. apply negb_true_iff in Hx. exact Hx.
Qed.

(** X10.  With the database running throughout: once [/delete-student]
    has succeeded for an id, the id is unknown, and a second
    [/delete-student] and a [/mark-ready] with the same id are both
    answered 404 "Student not found" and change nothing. *)
Theorem deleted_id_is_unknown e1 e2 d body r :
  JS.truthy (JS.get body "student_id") = true ->
  db_runs e1 ->
  db_runs e2 ->
  In r (Db.students d) ->
  sql_int (JS.get body "student_id") = Some (Zpos (Db.id r)) ->
  let s1 := handle sql_int e1 (DeleteStudent body) d in
  reply s1 = Returned (Response 200 (Message "Student deleted successfully!")) /\
  handle sql_int e2 (DeleteStudent body) (after s1) =
    Served (Returned (Response 404 (Error "Student not found"))) (after s1)
           [Query (Db.SelectStudentById (JS.get body "student_id"))] /\
  handle sql_int e2 (MarkReady body) (after s1) =
    Served (Returned (Response 404 (Error "Student not found"))) (after s1)
           [Query (Db.SelectContactById (JS.get body "student_id"))].
Proof.
  intros Ht Hdb1 Hdb2 Hin K s1. subst s1.
  destruct (some_row_filter sql_int _ _ _ Hin K) as (row & rest & F & _ & _).
  rewrite (delete_student_known sql_int _ _ _ _ _ Ht Hdb1 F). cbn [reply after].
  split; [reflexivity |]. split.
  - apply delete_student_unknown; [assumption | assumption | apply deleted_rows_gone].
  - apply mark_ready_unknown; [assumption | assumption | apply deleted_rows_gone].
Qed.

(** ** What the status of a reply tells *)


Lemma no_mail_in_queries (l : list effect) :
  Forall (fun c => exists q, c = Query q) l ->
  forall to subject text, ~ In (Mail to subject text) l.
Proof.
  intros H to subject text Hin. rewrite List.Forall_forall in H.
  destruct (H _ Hin) as (q & E). discriminate.
Qed.

(** X12.  A reply in the 400 range means that nothing happened: whatever
    the database and the mail transport do, a request answered 400 or 404
    leaves the database as it was and sends no mail. *)
Theorem client_errors_change_nothing e rq d r :
  reply (handle sql_int e rq d) = Returned r ->
  (400 <= status r < 500)%Z ->
  after (handle sql_int e rq d) = d /\
  forall to subject text, ~ In (Mail to subject text) (calls (handle sql_int e rq d)).
Proof.
  assert (Q : forall s : served,
            (exists r0, reply s = Returned r0 /\ ~ (400 <= status r0 < 500)%Z) \/
            (after s = d /\ Forall (fun c => exists q, c = Query q) (calls s)) ->
            reply s = Returned r -> (400 <= status r < 500)%Z ->
            after s = d /\ forall to subject text, ~ In (Mail to subject text) (calls s)).
  { intros s [(r0 & E & N) | [A C]] R S.
    - rewrite E in R. injection R as ->. contradiction.
    - split; [exact A | apply no_mail_in_queries; exact C]. }
  apply Q. clear Q.
  destruct d as [st nt nx]. destruct rq as [body | | body | body]; unfold_handler.
  - destruct (_ || _ || _); [right; cbn; auto |].
    destruct (negb (isValidEmail _)); [right; cbn; auto |].
    destruct (negb (JS.includes _ _)); [right; cbn; auto |].
    unfold_monad. cbn.
    destruct (db_up e 0); [| left; cbn; eexists; split; [reflexivity | cbn; lia]].
    destruct (List.filter _ st); [| right; cbn; eauto].
    cbn. destruct (db_up e 1); [| left; cbn; eexists; split; [reflexivity | cbn; lia]].
    destruct (mail_up e); left; cbn; eexists; (split; [reflexivity | cbn; lia]).
  - unfold_monad. cbn.
    destruct (db_up e 0); left; cbn; eexists; (split; [reflexivity | cbn; lia]).
  - destruct (JS.not _); [right; cbn; auto |].
    unfold_monad. cbn.
    destruct (db_up e 0); [| left; cbn; eexists; split; [reflexivity | cbn; lia]].
    destruct (List.filter _ st); [right; cbn; eauto |].
    cbn. destruct (db_up e 1); [| left; cbn; eexists; split; [reflexivity | cbn; lia]].
    destruct (mail_up e); cbn; [| left; cbn; eexists; split; [reflexivity | cbn; lia]].
    destruct (db_up e 2); [| left; cbn; eexists; split; [reflexivity | cbn; lia]].
    destruct (sql_int _); left; cbn; eexists; (split; [reflexivity | cbn; lia]).
  - destruct (JS.not _); [right; cbn; auto |].
    unfold_monad. cbn.
    destruct (db_up e 0); [| left; cbn; eexists; split; [reflexivity | cbn; lia]].
    destruct (List.filter _ st); [right; cbn; eauto |].
    cbn. destruct (db_up e 1); left; cbn; eexists; (split; [reflexivity | cbn; lia]).
Qed.

Lemma checks_validated body :
  JS.not (JS.get body "name") || JS.not (JS.get body "email")
  || JS.not (JS.get body "request_type") = false ->
  negb (isValidEmail (JS.get body "email")) = false ->
  negb (JS.includes [JS.Str "transcript"; JS.Str "recommendation_letter"]
                    (JS.get body "request_type")) = false ->
  validated body.
Proof.
  unfold JS.not, validated. intros P V I.
  apply orb_false_iff in P as [P P3]. apply orb_false_iff in P as [P1 P2].
  apply negb_false_iff in P1, P2, P3, V, I. auto.
Qed.

(** X13.  A success status is given only when the work is done, whatever
    the database and the mail transport do.  A 201 from [/add-student]
    means that the body was validated, no row had its pair, the row was
    inserted and the mail accepted; a 200 from [/mark-ready] means that a
    row has the id, the flag was set, the mail accepted and the
    notification row for that id appended; a 200 from [/delete-student]
    means that a row had the id and the rows of that id are deleted. *)
Theorem success_means_done e d r :
  (forall body,
     reply (handle sql_int e (AddStudent body) d) = Returned r -> status r = 201%Z ->
     validated body /\
     List.filter (Db.same_request (JS.get body "email") (JS.get body "request_type"))
                 (Db.students d) = [] /\
     mail_up e = true /\
     after (handle sql_int e (AddStudent body) d) =
       Db.insert_student (JS.get body "name") (JS.get body "email")
                         (JS.get body "request_type") d) /\
  (forall body,
     reply (handle sql_int e (MarkReady body) d) = Returned r -> status r = 200%Z ->
     mail_up e = true /\
     exists row rest,
       List.filter (Db.id_is sql_int (JS.get body "student_id")) (Db.students d)
         = row :: rest /\
       after (handle sql_int e (MarkReady body) d) =
         Db.insert_notification (Zpos (Db.id row)) (now e) (JS.Str (Db.request_type row))
           (Db.update_ready sql_int (JS.get body "student_id") d)) /\
  (forall body,
     reply (handle sql_int e (DeleteStudent body) d) = Returned r -> status r = 200%Z ->
     (exists row, In row (Db.students d) /\
                  Db.id_is sql_int (JS.get body "student_id") row = true) /\
     after (handle sql_int e (DeleteStudent body) d) =
       Db.delete_by_id sql_int (JS.get body "student_id") d).
Proof.
  destruct d as [st nt nx]. split; [| split]; intros body; unfold_handler.
  - destruct (_ || _ || _) eqn:P; [cbn; intros [= <-]; discriminate |].
    destruct (negb (isValidEmail _)) eqn:V; [cbn; intros [= <-]; discriminate |].
    destruct (negb (JS.includes _ _)) eqn:I; [cbn; intros [= <-]; discriminate |].
    unfold_monad. cbn.
    destruct (db_up e 0); [| cbn; intros [= <-]; discriminate].
    destruct (List.filter _ st) eqn:F; [| cbn; intros [= <-]; discriminate].
    cbn. destruct (db_up e 1); [| cbn; intros [= <-]; discriminate].
    destruct (mail_up e); cbn; intros [= <-]; [| discriminate].
    intros _. auto using checks_validated.
  - destruct (JS.not _); [cbn; intros [= <-]; discriminate |].
    unfold_monad. cbn.
    destruct (db_up e 0); [| cbn; intros [= <-]; discriminate].
    destruct (List.filter _ st) as [| row rest] eqn:F; [cbn; intros [= <-]; discriminate |].
    cbn. destruct (db_up e 1); [| cbn; intros [= <-]; discriminate].
    destruct (mail_up e); cbn; [| intros [= <-]; discriminate].
    destruct (db_up e 2); [| cbn; intros [= <-]; discriminate].
    assert (K : sql_int (JS.get body "student_id") = Some (Zpos (Db.id row))).
    { apply id_is_spec.
      assert (Hin : In row (List.filter (Db.id_is sql_int (JS.get body "student_id")) st))
        by (rewrite F; left; reflexivity).
      apply filter_In in Hin as [_ Hin]. exact Hin. }
    rewrite K. cbn. intros _ _. split; [reflexivity |].
    exists row, rest. split; reflexivity.
  - destruct (JS.not _); [cbn; intros [= <-]; discriminate |].
    unfold_monad. cbn.
    destruct (db_up e 0); [| cbn; intros [= <-]; discriminate].
    destruct (List.filter _ st) as [| row rest] eqn:F; [cbn; intros [= <-]; discriminate |].
    cbn. destruct (db_up e 1); cbn; intros [= <-]; [| discriminate].
    intros _. split; [| reflexivity].
    assert (Hin : In row (List.filter (Db.id_is sql_int (JS.get body "student_id")) st))
      by (rewrite F; left; reflexivity).
    apply filter_In in Hin. eauto.
Qed.

(** X14.  No request rewrites a row: every row of the table after a
    request is a row that was there before, or such a row with its flag
    set by [/mark-ready], or the row, not ready, that [/add-student]
    appended.  Keys, names, addresses and request types never change and
    the flag is never cleared, whatever the database and the mail
    transport do. *)
Theorem rows_change_by_flag_only e rq d x :
  In x (Db.students (after (handle sql_int e rq d))) ->
  In x (Db.students d) \/
  (exists body y, rq = MarkReady body /\ In y (Db.students d) /\ x = Db.set_ready y) \/
  (exists body, rq = AddStudent body /\
     x = Db.Student (Db.next_id d)
                    (Db.sql_text (JS.get body "name"))
                    (Db.sql_text (JS.get body "email"))
                    (Db.sql_text (JS.get body "request_type"))
                    false).
Proof.
  assert (U : forall v, In x (Db.students (Db.update_ready sql_int v d)) ->
              In x (Db.students d) \/ exists y, In y (Db.students d) /\ x = Db.set_ready y).
  { intros v Hx. simpl in Hx. apply in_map_iff in Hx as (y & E & Hy).
    destruct (Db.id_is sql_int v y); subst x; eauto. }
  destruct rq as [body | | body | body].
  - destruct (add_student_after sql_int e d body) as [-> | [_ ->]]; [auto |].
    simpl. rewrite in_app_iff. simpl. intros [H | [<- | []]]; eauto.
  - rewrite get_students_after. auto.
  - destruct (mark_ready_after sql_int e d body)
      as [-> | [-> | (_ & _ & _ & z & ty & ->)]]; [auto | |]; intros Hx;
      (destruct (U _ Hx) as [H | (y & Hy & ->)]; [auto | right; left; eauto]).
  - destruct (delete_student_after sql_int e d body) as [-> | ->]; [auto |].
    simpl. intros Hx. apply filter_In in Hx as [Hx _]. auto.
Qed.

(** X15.  On a known id, with the database running, [/mark-ready] looks
    the student up, sets the flag, then sends one mail to the address
    stored in the row it found (nothing of the request but the id is
    used), and only when that mail is accepted inserts the notification
    row. *)
Theorem mark_ready_calls e d body row rest :
  JS.truthy (JS.get body "student_id") = true ->
  db_runs e ->
  List.filter (Db.id_is sql_int (JS.get body "student_id")) (Db.students d) = row :: rest ->
  let sid := JS.get body "student_id" in
  calls (handle sql_int e (MarkReady body) d) =
  ([Query (Db.SelectContactById sid);
    Query (Db.UpdateStudentReady sid);
    Mail (JS.Str (Db.email row))
         (ready_subject (Db.request_type row))
         (ready_text (Db.name row) (Db.request_type row))] ++
   (if mail_up e
    then [Query (Db.InsertNotification sid (JS.Str (Db.request_type row)))]
    else []))%list.
Proof.
  intros Ht Hdb F sid. subst sid.
  assert (K : sql_int (JS.get body "student_id") = Some (Zpos (Db.id row))).
  { apply id_is_spec.
    assert (Hin : In row (List.filter (Db.id_is sql_int (JS.get body "student_id"))
                                      (Db.students d)))
      by (rewrite F; left; reflexivity).
    apply filter_In in Hin as [_ Hin]. exact Hin. }
  unfold_handler. unfold JS.not. rewrite Ht.
  unfold_monad. cbn. rewrite Hdb, F. cbn. rewrite Hdb.
  destruct (mail_up e); cbn; [rewrite Hdb, K |]; reflexivity.
Qed.

(** ** Marking ready more than once *)

Lemma update_ready_twice v d :
  Db.update_ready sql_int v (Db.update_ready sql_int v d) = Db.update_ready sql_int v d.
Proof.
  unfold Db.update_ready. simpl. f_equal. rewrite map_map. apply map_ext.
  intros x. destruct (Db.id_is sql_int v x) eqn:E.
  - assert (E' : Db.id_is sql_int v (Db.set_ready x) = true) by exact E.
    rewrite E'. reflexivity.
  - rewrite E. reflexivity.
Qed.

(** X16.  With the database running for both calls, a [/mark-ready] on a
    known id whose mail was rejected can be sent again: the first call is
    answered 500 "Failed to send email." with the flag set and no
    notification row, the second, its mail accepted, is answered 200,
    changes no row of the students table, and appends the one
    notification row for the student. *)
Theorem mark_ready_retry e1 e2 d body r :
  JS.truthy (JS.get body "student_id") = true ->
  db_runs e1 ->
  db_runs e2 ->
  In r (Db.students d) ->
  sql_int (JS.get body "student_id") = Some (Zpos (Db.id r)) ->
  mail_up e1 = false ->
  mail_up e2 = true ->
  let s1 := handle sql_int e1 (MarkReady body) d in
  let s2 := handle sql_int e2 (MarkReady body) (after s1) in
  reply s1 = Returned (Response 500 (Error "Failed to send email.")) /\
  Db.notifications (after s1) = Db.notifications d /\
  reply s2 = Returned (Response 200
               (Message "Request marked as ready, email sent, and notification logged!")) /\
  Db.students (after s2) = Db.students (after s1) /\
  exists n, Db.notifications (after s2) = (Db.notifications d ++ [n])%list /\
            Db.student_id n = Zpos (Db.id r) /\ Db.email_sent n = true.
Proof.
  intros Ht Hdb1 Hdb2 Hin K M1 M2 s1 s2. subst s2 s1.
  destruct (some_row_filter sql_int _ _ _ Hin K) as (row & rest & F & _ & _).
  destruct (mark_ready_known sql_int e1 d body row rest Ht Hdb1 F) as [_ Down].
  destruct (Down M1) as [-> ->]. clear Down.
  assert (Hin' : In (Db.set_ready r)
                    (Db.students (Db.update_ready sql_int (JS.get body "student_id") d))).
  { simpl. apply in_map_iff. exists r. split; [| assumption].
    apply id_is_spec in K. rewrite K. reflexivity. }
  destruct (some_row_filter sql_int _ _ (Db.set_ready r) Hin' K)
    as (row' & rest' & F' & _ & Hid').
  destruct (mark_ready_known sql_int e2 _ body row' rest' Ht Hdb2 F') as [Up _].
  destruct (Up M2) as [-> ->]. clear Up.
  rewrite update_ready_twice. split; [reflexivity |]. split; [reflexivity |].
  split; [reflexivity |]. split; [reflexivity |].
  eexists. split; [reflexivity |]. simpl. simpl in Hid'. rewrite Hid'. auto.
Qed.

Lemma handle_notifications_count e rq d :
  List.length (Db.notifications (after (handle sql_int e rq d))) =
  (List.length (Db.notifications d) + (if marked_ready sql_int e rq d then 1 else 0))%nat.
Proof.
  unfold marked_ready.
  destruct d as [st nt nx]. destruct rq as [body | | body | body].
  - destruct (add_student_after sql_int e (Db.Make st nt nx) body) as [-> | [_ ->]];
      simpl; lia.
  - rewrite get_students_after. simpl. lia.
  - unfold_handler.
    destruct (JS.not _); [cbn; lia |].
    unfold_monad. cbn.
    destruct (db_up e 0); [| cbn; lia].
    destruct (List.filter _ st); [cbn; lia |].
    cbn. destruct (db_up e 1); [| cbn; lia].
    destruct (mail_up e); cbn; [| lia].
    destruct (db_up e 2); [| cbn; lia].
    destruct (sql_int _); cbn; [| lia].
    rewrite List.length_app. simpl. lia.
  - destruct (delete_student_after sql_int e (Db.Make st nt nx) body) as [-> | ->];
      simpl; lia.
Qed.

(** X17.  Over any sequence of requests, whatever the database and the
    mail transport do, the notifications table grows by exactly one row
    for each [/mark-ready] request answered 200, and by nothing else. *)
Theorem notifications_count rqs d :
  List.length (Db.notifications (serve sql_int rqs d)) =
  (List.length (Db.notifications d) + count_marked_ready sql_int rqs d)%nat.
Proof.
  revert d. induction rqs as [| [e rq] rqs IH]; intros d; simpl.
  - lia.
  - rewrite IH, handle_notifications_count. lia.
Qed.

End MoreHandlerFacts.

(** ** The further properties at work on sample requests *)

Lemma valid_email_one_at_sample :
  isValidEmail (JS.Str "a@b.com") = true /\
  count_occ ascii_dec (list_ascii_of_string "a@b.com") "@"%char = 1%nat.
Proof.
  assert (H : isValidEmail (JS.Str "a@b.com") = true) by (vm_compute; reflexivity).
  split; [exact H |].
  destruct (valid_email_one_at "a@b.com" H) as [C _]. exact C.
Defined.


Lemma add_student_twice_sample :
  db_runs mail_down /\
  db_runs all_up /\
  validated alice /\
  reply (handle numbers_only all_up (AddStudent alice)
           (after (handle numbers_only mail_down (AddStudent alice) empty_db))) =
    Returned (Response 400 (Error "Request already exists for this student.")).
Proof.
  split; [exact mail_down_runs |]. split; [exact all_up_runs |].
  split; [exact alice_validated |].
  destruct (add_student_twice numbers_only mail_down all_up empty_db alice
              mail_down_runs all_up_runs alice_validated
              (fun r (H : In r []) => match H with end)) as [R _].
  exact R.
Defined.

Lemma add_student_then_list_sample :
  db_runs mail_down /\
  db_runs all_up /\
  validated alice /\
  exists rows,
    reply (handle numbers_only all_up GetStudents
             (after (handle numbers_only mail_down (AddStudent alice) empty_db))) =
      Returned (Response 200 (Rows rows)) /\
    List.length rows = 1%nat /\
    In alice_row rows.
Proof.
  split; [exact mail_down_runs |]. split; [exact all_up_runs |].
  split; [exact alice_validated |].
  destruct (add_student_then_list numbers_only mail_down all_up empty_db alice
              mail_down_runs all_up_runs alice_validated
              (fun r (H : In r []) => match H with end))
    as (rows & R & L & M).
  exists rows. split; [exact R |]. split; [exact L |].
  apply M. right. reflexivity.
Defined.

Lemma first_statement_rejected_sample :
  db_up db_down 0 = false /\
  handle numbers_only db_down (AddStudent alice) one_student =
    Served (Returned (Response 500 (Error "Server error"))) one_student
           [Query (Db.SelectStudentByEmailAndType (JS.Str "a@b.com") (JS.Str "transcript"))] /\
  handle numbers_only db_down (DeleteStudent (with_id (JS.Num 1))) one_student =
    Served (Returned (Response 500 (Error "Server error while deleting student")))
           one_student [Query (Db.SelectStudentById (JS.Num 1))].
Proof.
  split; [reflexivity |].
  destruct (first_statement_rejected numbers_only db_down one_student eq_refl)
    as (A & _ & _ & D).
  split; [exact (A alice alice_validated) | exact (D (with_id (JS.Num 1)) eq_refl)].
Defined.

Lemma mark_ready_rejected_midway_sample :
  JS.truthy (JS.get (with_id (JS.Num 1)) "student_id") = true /\
  db_up third_rejected 0 = true /\
  reply (handle numbers_only third_rejected (MarkReady (with_id (JS.Num 1))) one_student) =
    Returned (Response 500 (Error "Server error")) /\
  after (handle numbers_only third_rejected (MarkReady (with_id (JS.Num 1))) one_student) =
    Db.Make [alice_ready] [] 2.
Proof.
  split; [reflexivity |]. split; [reflexivity |].
  destruct (mark_ready_rejected_midway numbers_only third_rejected one_student
              (with_id (JS.Num 1)) alice_row [] eq_refl eq_refl eq_refl) as [_ B].
  rewrite (B eq_refl eq_refl eq_refl). split; reflexivity.
Defined.

Lemma rejected_write_changes_nothing_sample :
  db_up second_rejected 0 = true /\
  db_up second_rejected 1 = false /\
  after (handle numbers_only second_rejected (AddStudent alice) empty_db) = empty_db /\
  after (handle numbers_only second_rejected (DeleteStudent (with_id (JS.Num 1)))
                one_student) = one_student.
Proof.
  split; [reflexivity |]. split; [reflexivity |].
  destruct (rejected_write_changes_nothing numbers_only second_rejected empty_db
              eq_refl eq_refl) as [A _].
  destruct (rejected_write_changes_nothing numbers_only second_rejected one_student
              eq_refl eq_refl) as [_ D].
  rewrite (A alice alice_validated eq_refl).
  rewrite (D (with_id (JS.Num 1)) alice_row [] eq_refl eq_refl).
  split; reflexivity.
Defined.

Lemma deleted_id_is_unknown_sample :
  JS.truthy (JS.get (with_id (JS.Num 1)) "student_id") = true /\
  db_runs all_up /\
  In alice_row (Db.students one_student) /\
  reply (handle numbers_only all_up (DeleteStudent (with_id (JS.Num 1)))
           (after (handle numbers_only all_up (DeleteStudent (with_id (JS.Num 1)))
                          one_student))) =
    Returned (Response 404 (Error "Student not found")).
Proof.
  assert (Hin : In alice_row (Db.students one_student)) by (left; reflexivity).
  split; [reflexivity |]. split; [exact all_up_runs |]. split; [exact Hin |].
  destruct (deleted_id_is_unknown numbers_only all_up all_up one_student
              (with_id (JS.Num 1)) alice_row eq_refl all_up_runs all_up_runs Hin eq_refl)
    as (_ & D & _).
  rewrite D. reflexivity.
Defined.

Lemma client_errors_change_nothing_sample :
  reply (handle numbers_only all_up (AddStudent alice) one_student) =
    Returned (Response 400 (Error "Request already exists for this student.")) /\
  (400 <= 400 < 500)%Z /\
  after (handle numbers_only all_up (AddStudent alice) one_student) = one_student.
Proof.
  assert (R : reply (handle numbers_only all_up (AddStudent alice) one_student) =
              Returned (Response 400 (Error "Request already exists for this student.")))
    by (vm_compute; reflexivity).
  assert (S : (400 <= 400 < 500)%Z) by lia.
  split; [exact R |]. split; [exact S |].
  destruct (client_errors_change_nothing numbers_only all_up (AddStudent alice)
              one_student _ R S) as [A _].
  exact A.
Defined.

Lemma success_means_done_sample :
  reply (handle numbers_only all_up (AddStudent alice) empty_db) =
    Returned (Response 201 (Message "Student added and confirmation email sent!")) /\
  after (handle numbers_only all_up (AddStudent alice) empty_db) = one_student.
Proof.
  assert (R : reply (handle numbers_only all_up (AddStudent alice) empty_db) =
              Returned (Response 201 (Message "Student added and confirmation email sent!")))
    by (vm_compute; reflexivity).
  split; [exact R |].
  destruct (success_means_done numbers_only all_up empty_db
              (Response 201 (Message "Student added and confirmation email sent!")))
    as [A _].
  destruct (A alice R eq_refl) as (_ & _ & _ & E).
  rewrite E. reflexivity.
Defined.

Lemma rows_change_by_flag_only_sample :
  In alice_ready
     (Db.students (after (handle numbers_only all_up (MarkReady (with_id (JS.Num 1)))
                                 one_student))) /\
  (In alice_ready (Db.students one_student) \/
   (exists body y, MarkReady (with_id (JS.Num 1)) = MarkReady body /\
                   In y (Db.students one_student) /\ alice_ready = Db.set_ready y) \/
   (exists body, MarkReady (with_id (JS.Num 1)) = AddStudent body /\
      alice_ready = Db.Student (Db.next_id one_student)
                      (Db.sql_text (JS.get body "name"))
                      (Db.sql_text (JS.get body "email"))
                      (Db.sql_text (JS.get body "request_type"))
                      false)).
Proof.
  assert (H : In alice_ready
                 (Db.students (after (handle numbers_only all_up
                                        (MarkReady (with_id (JS.Num 1))) one_student))))
    by (left; reflexivity).
  split; [exact H |].
  exact (rows_change_by_flag_only numbers_only all_up (MarkReady (with_id (JS.Num 1)))
           one_student alice_ready H).
Defined.

Lemma mark_ready_calls_sample :
  JS.truthy (JS.get (with_id (JS.Num 1)) "student_id") = true /\
  db_runs all_up /\
  calls (handle numbers_only all_up (MarkReady (with_id (JS.Num 1))) one_student) =
    [Query (Db.SelectContactById (JS.Num 1));
     Query (Db.UpdateStudentReady (JS.Num 1));
     Mail (JS.Str "a@b.com") (ready_subject "transcript") (ready_text "Alice" "transcript");
     Query (Db.InsertNotification (JS.Num 1) (JS.Str "transcript"))].
Proof.
  split; [reflexivity |]. split; [exact all_up_runs |].
  exact (mark_ready_calls numbers_only all_up one_student (with_id (JS.Num 1))
           alice_row [] eq_refl all_up_runs eq_refl).
Defined.

Lemma mark_ready_retry_sample :
  JS.truthy (JS.get (with_id (JS.Num 1)) "student_id") = true /\
  db_runs mail_down /\
  db_runs all_up /\
  In alice_row (Db.students one_student) /\
  reply (handle numbers_only mail_down (MarkReady (with_id (JS.Num 1))) one_student) =
    Returned (Response 500 (Error "Failed to send email.")) /\
  reply (handle numbers_only all_up (MarkReady (with_id (JS.Num 1)))
           (after (handle numbers_only mail_down (MarkReady (with_id (JS.Num 1)))
                          one_student))) =
    Returned (Response 200
      (Message "Request marked as ready, email sent, and notification logged!")).
Proof.
  assert (Hin : In alice_row (Db.students one_student)) by (left; reflexivity).
  split; [reflexivity |]. split; [exact mail_down_runs |].
  split; [exact all_up_runs |]. split; [exact Hin |].
  destruct (mark_ready_retry numbers_only mail_down all_up one_student
              (with_id (JS.Num 1)) alice_row eq_refl mail_down_runs all_up_runs Hin
              eq_refl eq_refl eq_refl) as (R1 & _ & R2 & _).
  split; [exact R1 | exact R2].
Defined.
